(** * AMPL utilities: [model_version_utils.py] and [compare_splits_plots.py]

    A shallow embedding of the two utility scripts of
    [atomsci/ddm/utils] and the properties stated about them.

    Conventions.
    - A Python [str] is a [string]; a character stands for the code point
      of the same number (0..255).
    - A Python call that may raise returns a [res]: [Return v] or
      [Raise e], where [e] records the exception class and its payload.
    - Calls into other packages (json, tarfile, tempfile, pathlib,
      pandas, numpy, seaborn, matplotlib, umap, atomsci.ddm.pipeline) and
      the errors of [open] are variables of the enclosing section; what
      is assumed about them is stated as a hypothesis next to the
      variable.
    - Calls to [logger] only write to the log and are left out. *)

From stdpp Require Import gmap strings list fin_maps.
From Stdlib Require Import Ascii String QArith Qcanon.

(** ** Python values, exceptions and outcomes *)

(** The exception classes the two scripts can meet.  [JSONDecodeError]
    and [UnicodeDecodeError] are subclasses of [ValueError];
    [FileNotFoundError], [IsADirectoryError], [NotADirectoryError] and
    [PermissionError] are subclasses of [OSError], none of them of
    another; tarfile's [ReadError] is related to none of these.
    [OtherError cls] is an exception of a class [cls] that is none of
    the classes named here and no subclass of one of them. *)
Inductive exn : Type :=
| ValueError (msg : string)
| JSONDecodeError
| UnicodeDecodeError
| KeyError (key : string)
| AttributeError (msg : string)
| TypeError (msg : string)
| FileNotFoundError (path : string)
| IsADirectoryError (path : string)
| NotADirectoryError (path : string)
| PermissionError (path : string)
| ReadError
| OtherError (cls : string).

Inductive res (A : Type) : Type :=
| Return (a : A)
| Raise (e : exn).
Arguments Return {A} a.
Arguments Raise {A} e.

(** [isinstance(e, ValueError)], subclasses included. *)
Definition is_ValueError (e : exn) : bool :=
  match e with
  | ValueError _ | JSONDecodeError | UnicodeDecodeError => true
  | _ => false
  end.

Definition is_KeyError (e : exn) : bool :=
  match e with
  | KeyError _ => true
  | _ => false
  end.

Definition raises {A} (r : res A) (cls : exn → bool) : Prop :=
  match r with
  | Return _ => False
  | Raise e => cls e = true
  end.

(** Two runs have the same outcome when they return the same value or
    both raise (the messages may differ). *)
Definition same_outcome {A} (r1 r2 : res A) : Prop :=
  match r1, r2 with
  | Return a, Return b => a = b
  | Raise _, Raise _ => True
  | _, _ => False
  end.

(** ** Strings *)

Module Str.

(** [s[:n]] *)
Fixpoint slice_to (n : nat) (s : string) : string :=
  match n, s with
  | S n', String c s' => String c (slice_to n' s')
  | _, _ => ""
  end.

Fixpoint forallb (p : ascii → bool) (s : string) : bool :=
  match s with
  | "" => true
  | String c s' => p c && forallb p s'
  end.

Definition code (c : ascii) : N := N_of_ascii c.

(** [\d] of the [re] module on the code points 0..255: the ten ASCII
    digits (no other character below 256 is a decimal digit). *)
Definition is_digit (c : ascii) : bool :=
  (48 <=? code c)%N && (code c <=? 57)%N.

(** The characters [str.strip()] removes, on the code points 0..255:
    TAB..CR, FS..US, space, NEL and NBSP. *)
Definition is_whitespace (c : ascii) : bool :=
  ((9 <=? code c)%N && (code c <=? 13)%N)
  || ((28 <=? code c)%N && (code c <=? 32)%N)
  || (code c =? 133)%N || (code c =? 160)%N.

Fixpoint lstrip (s : string) : string :=
  match s with
  | String c s' => if is_whitespace c then lstrip s' else s
  | "" => ""
  end.

Fixpoint rstrip (s : string) : string :=
  match s with
  | "" => ""
  | String c s' =>
      match rstrip s' with
      | "" => if is_whitespace c then "" else String c ""
      | t => String c t
      end
  end.

Definition strip (s : string) : string := rstrip (lstrip s).

Fixpoint join (sep : string) (l : list string) : string :=
  match l with
  | [] => ""
  | [x] => x
  | x :: rest => x +:+ sep +:+ join sep rest
  end.

Fixpoint startswith (p s : string) : bool :=
  match p, s with
  | "", _ => true
  | String a p', String b s' => bool_decide (a = b) && startswith p' s'
  | _, _ => false
  end.

(** [s.endswith(suf)]: some tail of [s] is [suf]. *)
Fixpoint endswith (suf s : string) : bool :=
  bool_decide (s = suf)
  || match s with
     | "" => false
     | String _ s' => endswith suf s'
     end.

(** [s.split(sep)] for a one-character separator. *)
Fixpoint split (sep : ascii) (s : string) : list string :=
  match s with
  | "" => [""]
  | String c s' =>
      if bool_decide (c = sep) then "" :: split sep s'
      else match split sep s' with
           | [] => [String c ""]
           | h :: t => String c h :: t
           end
  end.

End Str.

(** ** Error and state monads

    [res] is the error monad; [st S] threads a state of type [S] through
    calls that may raise.  A raise keeps the state reached so far. *)

#[global] Instance res_ret : MRet res := λ A a, Return a.
#[global] Instance res_bind : MBind res := λ A B f r,
  match r with
  | Return a => f a
  | Raise e => Raise e
  end.

Definition st (S A : Type) : Type := S → res A * S.

#[global] Instance st_ret {S} : MRet (st S) := λ A a s, (Return a, s).
#[global] Instance st_bind {S} : MBind (st S) := λ A B f m s,
  match m s with
  | (Return a, s') => f a s'
  | (Raise e, s') => (Raise e, s')
  end.

Definition raise {S A} (e : exn) : st S A := λ s, (Raise e, s).
Definition lift {S A} (r : res A) : st S A := λ s, (r, s).
Definition gets {S A} (f : S → A) : st S A := λ s, (Return (f s), s).
Definition modify {S} (f : S → S) : st S unit := λ s, (Return tt, f s).

(** [try: body  except classes: handler] *)
Definition try_except {S A} (body : st S A) (catches : exn → bool)
    (handler : exn → st S A) : st S A := λ s,
  match body s with
  | (Return a, s') => (Return a, s')
  | (Raise e, s') => if catches e then handler e s' else (Raise e, s')
  end.

(** ** Values read from JSON *)

(** What [json.load] builds: [None], booleans, numbers, strings, lists
    and dicts with string keys.  A dict is the list of its items; its
    keys are distinct. *)
#[warnings="-register-all"] Inductive pyval : Type :=
| PNone
| PBool (b : bool)
| PInt (z : Z)
| PFloat (q : Q)
| PStr (s : string)
| PList (l : list pyval)
| PDict (items : list (string * pyval)).

(** [d.get(key)] on the items of a dict; [None] of the option is
    Python's "key absent". *)
Fixpoint dict_get (items : list (string * pyval)) (key : string) : option pyval :=
  match items with
  | [] => None
  | (k, v) :: rest => if bool_decide (k = key) then Some v else dict_get rest key
  end.

(** ** The file system

    Files are stored under their resolved path: the list of the names
    from the root down.  A path string is resolved lexically, as the
    kernel does when the directories named on the way exist, none of
    them is a symbolic link and the path does not end in a slash.
    [files] holds the regular files that can be read, with their
    content; what [open] raises at any other path (a directory, a path
    through a file, a file that may not be read, nothing at all) is a
    variable of the section below.  [dirs] holds the directories made by
    [mkdtemp]. *)

Record world : Type := {
  cwd : list string;
  files : gmap (list string) string;
  dirs : gset (list string);
  ampl_dist_version : string   (* metadata.version("atomsci-ampl") *)
}.

Module Path.

Definition step (acc : list string) (c : string) : list string :=
  if bool_decide (c = "") || bool_decide (c = ".") then acc
  else if bool_decide (c = "..") then removelast acc
  else (acc ++ [c])%list.

Definition walk (base : list string) (comps : list string) : list string :=
  foldl step base comps.

Definition is_abs (s : string) : bool := Str.startswith "/" s.

Definition resolve (cwd : list string) (s : string) : list string :=
  walk (if is_abs s then [] else cwd) (Str.split "/" s).

(** [os.path.join(a, b)] of posixpath. *)
Definition os_path_join (a b : string) : string :=
  if Str.startswith "/" b then b
  else if bool_decide (a = "") || Str.endswith "/" a then a +:+ b
  else a +:+ "/" +:+ b.

(** The parts [pathlib.Path(s)] keeps: empty names and ["."] are
    dropped, [".."] stays. *)
Definition parts (s : string) : list string :=
  filter (λ c, c ≠ "" ∧ c ≠ ".") (Str.split "/" s).

(** The root [pathlib] gives an absolute path: two leading slashes are
    kept, any other number is one slash. *)
Definition root (s : string) : string :=
  if Str.startswith "//" s && negb (Str.startswith "///" s) then "//" else "/".

(** [str(Path(s).absolute() / rel)] *)
Definition absolute_str (w : world) (s : string) (rel : list string) : string :=
  if is_abs s then root s +:+ Str.join "/" (parts s ++ rel)%list
  else "/" +:+ Str.join "/" (cwd w ++ parts s ++ rel)%list.

End Path.

(** The content of the regular file that the path [p] names, when it
    names one. *)
Definition read_file (w : world) (p : string) : option string :=
  if bool_decide (p = "") then None else files w !! Path.resolve (cwd w) p.

(** No file lies in or below [d], and [d] was not made before. *)
Definition fresh_dir (w : world) (d : list string) : Prop :=
  (d ∉ dirs w) ∧ ∀ k, is_Some (files w !! k) → ¬ (d `prefix_of` k).

(** [os.path.isfile(p)] *)
Definition os_path_isfile (p : string) : st world bool := λ w,
  (Return (bool_decide (is_Some (read_file w p))), w).

(** The same world with another version of the toolkit installed. *)
Definition set_installed (version : string) (w : world) : world :=
  {| cwd := cwd w;
     files := files w;
     dirs := dirs w;
     ampl_dist_version := version |}.

(** * model_version_utils.py *)

(** [comp_dict]: the groups of compatible AMPL versions. *)
Definition comp_dict : gmap string string :=
  {[ "1.2" := "group1"; "1.3" := "group1"; "1.4" := "group2"; "1.5" := "group2" ]}.

(** [comp_dict[key]] *)
Definition comp_dict_getitem (key : string) : res string :=
  match comp_dict !! key with
  | Some g => Return g
  | None => Raise (KeyError key)
  end.

(** [re.fullmatch(version_pattern, input)] for the pattern [[\d.]+]: one
    or more characters, each a digit or a period. *)
Definition version_char (c : ascii) : bool :=
  Str.is_digit c || bool_decide (c = "."%char).

Definition version_pattern_fullmatch (input : string) : bool :=
  negb (bool_decide (input = "")) && Str.forallb version_char input.

Definition validate_version (input : string) : res bool :=
  if version_pattern_fullmatch input then Return true
  else Raise (ValueError ("Input " +:+ input +:+ " is not valid version format.")).

(** [get_ampl_version()]: the version of the installed distribution.  The
    toolkit is taken to be installed, so the call returns (where it is
    not, [metadata.version] raises [PackageNotFoundError]). *)
Definition get_ampl_version : st world string := λ w,
  (Return (ampl_dist_version w), w).

(** A member of a tar archive as [tarfile] reads it: its name and its
    type.  A regular file comes with its content, a symbolic or hard
    link with the name it points to; [OTHERTYPE] stands for the devices
    and FIFOs. *)
Inductive member_type : Type :=
| REGTYPE (content : string)
| DIRTYPE
| SYMTYPE (linkname : string)
| LNKTYPE (linkname : string)
| OTHERTYPE.

Record TarInfo : Type := { member_name : string; member_kind : member_type }.

(** [x.strip()] of a value read from JSON: only a [str] has the method. *)
Definition py_strip (v : pyval) : res string :=
  match v with
  | PStr s => Return (Str.strip s)
  | _ => Raise (AttributeError "strip")
  end.

(** [x.get] of a value read from JSON: only a dict has the method. *)
Definition py_get (v : pyval) (key : string) (dflt : pyval) : res pyval :=
  match v with
  | PDict items => Return (default dflt (dict_get items key))
  | _ => Raise (AttributeError "get")
  end.

Definition newline : string := String "010"%char "".

(** * compare_splits_plots.py *)

(** ** Data frames and arrays *)

(** A cell of a data frame: a string, a number or a missing value.
    Numbers are exact rationals in lowest terms, so that equal numbers
    are equal cells; [isin] and [==] then compare cells as pandas does
    (a missing value is found by [isin] among missing values, and equals
    no string). *)
Inductive cell : Type :=
| CStr (s : string)
| CNum (q : Qc)
| CNaN.

#[global] Instance Qc_eq_decision : EqDecision Qc := Qc_eq_dec.
#[global] Instance cell_eq_decision : EqDecision cell.
Proof. solve_decision. Defined.

(** A row keeps its index label; the cells follow the frame's columns,
    whose names are distinct. *)
Record Row : Type := { label : Z; cells : list cell }.

#[global] Instance Row_eq_decision : EqDecision Row.
Proof. solve_decision. Defined.

Record DataFrame : Type := { columns : list string; rows : list Row }.

(** A float array of two dimensions, as numpy holds it: the second
    dimension is known also when there are no rows. *)
Record ndarray : Type := { ncols : nat; arows : list (list Q) }.

Definition column_index (cols : list string) (col : string) : option nat :=
  fst <$> list_find (λ c, c = col) cols.

Definition cell_at (i : nat) (r : Row) : cell := nth i (cells r) CNaN.

(** [df[col]]: the values of a column, [KeyError] when there is none. *)
Definition getitem (df : DataFrame) (col : string) : res (list cell) :=
  match column_index (columns df) col with
  | Some i => Return (map (cell_at i) (rows df))
  | None => Raise (KeyError col)
  end.

(** [series == value] *)
Definition series_eq (series : list cell) (value : cell) : list bool :=
  map (λ c, bool_decide (c = value)) series.

(** [series.isin(values)] *)
Definition isin (series : list cell) (values : list cell) : list bool :=
  map (λ c, bool_decide (c ∈ values)) series.

Fixpoint mask_select {A} (mask : list bool) (l : list A) : list A :=
  match mask, l with
  | b :: mask', x :: l' => if b then x :: mask_select mask' l' else mask_select mask' l'
  | _, _ => []
  end.

(** [df[mask]] for a boolean mask made from [df] itself. *)
Definition boolean_index (df : DataFrame) (mask : list bool) : DataFrame :=
  {| columns := columns df; rows := mask_select mask (rows df) |}.

Definition Qsum (l : list Q) : Q := foldr Qplus 0%Q l.

(** [np.sum(a, axis=0)] *)
Definition np_sum_axis0 (a : ndarray) : list Q :=
  map (λ j, Qsum (map (λ r, nth j r 0%Q) (arows a))) (seq 0 (ncols a)).

(** [a / b] on two arrays of one dimension and the same length, in exact
    arithmetic.  (Where the divisor is zero numpy gives [nan] or [inf];
    the value here is then meaningless.) *)
Definition np_divide (a b : list Q) : list Q := zip_with Qdiv a b.

(** ** Functions and records that call no other package *)

(** One of the three lines of [split]: the rows of [total_df] whose
    identifier is among the [cmpd_id] values that [split_df] gives the
    subset [name]. *)
Definition subset_rows (total_df split_df : DataFrame) (id_col name : string)
    : res DataFrame :=
  ids ← getitem total_df id_col;
  subset ← getitem split_df "subset";
  cmpd_ids ← getitem (boolean_index split_df (series_eq subset (CStr name))) "cmpd_id";
  mret (boolean_index total_df (isin ids cmpd_ids)).

Definition split (total_df split_df : DataFrame) (id_col : string)
    : res (DataFrame * DataFrame * DataFrame) :=
  train_df ← subset_rows total_df split_df id_col "train";
  test_df ← subset_rows total_df split_df id_col "test";
  valid_df ← subset_rows total_df split_df id_col "valid";
  mret (train_df, test_df, valid_df).

(** The command line of the script. *)
Record Namespace : Type := {
  csv : string;
  id_col : string;
  smiles_col : string;
  split_a : string;
  split_b : string;
  output_dir : string
}.

(** The keyword arguments of a call of [SplitStats(total_df, split_df,
    ...)]; [None] is an argument the call does not give. *)
Record SplitStats_kwargs : Type := {
  kw_smiles_col : option string;
  kw_id_col : option string;
  kw_response_cols : option (list string)
}.

(** * Sample inputs

    A small world to run the functions on: three model archives below
    [/models], a damaged one below [/broken] and two metadata files
    below [/data].  The file contents are tokens; [json_loads] and
    [tar_members] of the sample say what each token stands for.  The
    library calls of the sample are stand-ins: each is written for the
    files of the samples, on which it gives what the library gives. *)
Module Sample.

Definition world0 : world := {|
  cwd := ["home"; "user"];
  files := {[ ["models"; "good.tar.gz"] := "archive:good";
              ["models"; "old"; "nometa.tar.gz"] := "archive:nometa";
              ["models"; "badjson.tar.gz"] := "archive:badjson";
              ["broken"; "damaged.tar.gz"] := "not an archive";
              ["data"; "model_metadata.json"] := "json:good";
              ["data"; "old_metadata.json"] := "json:no-version";
              ["home"; "user"; "notes.txt"] := "notes" ]};
  dirs := ∅;
  ampl_dist_version := "1.5.2"
|}.

(** The metadata of the good archive: a JSON object with a
    ['model_parameters'] object that has the key ['ampl_version']. *)
Definition metadata_good : pyval :=
  PDict [("model_uuid", PStr "0f1d");
         ("model_parameters",
          PDict [("model_type", PStr "NN"); ("ampl_version", PStr "1.4.1 ")])].

Definition json_loads (text : string) : option pyval :=
  if bool_decide (text = "json:good") then Some metadata_good
  else if bool_decide (text = "json:no-version") then
    Some (PDict [("model_parameters", PDict [("model_type", PStr "RF")])])
  else None.

(** The texts of the samples all decode, so one that gives no value is
    not a JSON document. *)
Definition json_load_error (text : string) : exn := JSONDecodeError.

Definition regular (name content : string) : TarInfo :=
  {| member_name := name; member_kind := REGTYPE content |}.

Definition tar_members (data : string) : res (list TarInfo) :=
  if bool_decide (data = "archive:good") then
    Return [regular "./model_metadata.json" "json:good"; regular "./model.pkl" "weights"]
  else if bool_decide (data = "archive:nometa") then
    Return [regular "readme.txt" "no metadata here"]
  else if bool_decide (data = "archive:badjson") then
    Return [regular "model_metadata.json" "{"]
  else Raise ReadError.

(** A directory of a sample world: the root, a directory made by
    [mkdtemp], or a proper prefix of the path of a stored file. *)
Definition is_directory (w : world) (d : list string) : bool :=
  bool_decide (d = []) || bool_decide (d ∈ dirs w)
  || bool_decide (Exists (λ k, d `prefix_of` k ∧ k ≠ d) (map_to_list (files w)).*1).

(** The path [k] runs through a stored file. *)
Definition below_file (w : world) (k : list string) : bool :=
  bool_decide (Exists (λ f, f `prefix_of` k ∧ f ≠ k) (map_to_list (files w)).*1).

(** What [open] raises in a sample world at a path that names no
    file. *)
Definition open_error (p : string) (w : world) : exn :=
  let k := Path.resolve (cwd w) p in
  if bool_decide (p = "") then FileNotFoundError p
  else if is_directory w k then IsADirectoryError p
  else if below_file w k then NotADirectoryError p
  else FileNotFoundError p.

Definition write_file (p : string) (content : string) (w : world) : world :=
  {| cwd := cwd w;
     files := <[Path.resolve (cwd w) p := content]> (files w);
     dirs := dirs w;
     ampl_dist_version := ampl_dist_version w |}.

(** Extraction of the archives of the samples, which hold regular files
    only: each member is written at [os.path.join(path, name)], a later
    member over an earlier one; a member whose place is below a file or
    is a directory cannot be written, and the extraction ends there with
    the error of the [open] call.  At a member of another type the
    stand-in stops. *)
Fixpoint tar_extract (members : list TarInfo) (path : string) (w : world)
    : res unit * gmap (list string) string :=
  match members with
  | [] => (Return tt, files w)
  | m :: rest =>
      let target := Path.os_path_join path (member_name m) in
      let k := Path.resolve (cwd w) target in
      match member_kind m with
      | REGTYPE content =>
          if below_file w k then (Raise (NotADirectoryError target), files w)
          else if is_directory w k then (Raise (IsADirectoryError target), files w)
          else tar_extract rest path (write_file target content w)
      | _ => (Raise (OtherError "NotImplementedError"), files w)
      end
  end.

(** The paths on the way from [base] down to [k], [base] left out. *)
Definition prefixes_below (base k : list string) : list (list string) :=
  if bool_decide (base `prefix_of` k)
  then map (λ n, take n k) (seq (S (List.length base)) (List.length k - List.length base))
  else [].

(** The listing of a sample world for a pattern ['*suffix']: the files
    and directories below [dirname] whose name ends in the suffix, each
    given by its names below [dirname], in the order of the file
    table. *)
Definition rglob (dirname pattern : string) (w : world) : list (list string) :=
  match pattern with
  | String star suffix =>
      if bool_decide (star = "*"%char) then
        let base := Path.resolve (cwd w) dirname in
        map (drop (List.length base))
          (filter (λ k, Str.endswith suffix (List.last k "") = true)
             (remove_dups (List.concat (map (prefixes_below base)
                ((map_to_list (files w)).*1 ++ elements (dirs w))))))
      else []
  | _ => []
  end.

(** Every directory of the samples can be scanned. *)
Definition rglob_raises (dirname pattern : string) (w : world) : option exn := None.

(** A directory name longer than every first name in use: [/tmp_..._]. *)
Definition first_names (w : world) : list string :=
  map (λ k, hd "" k) ((map_to_list (files w)).*1 ++ elements (dirs w)).

Fixpoint underscores (n : nat) : string :=
  match n with
  | O => ""
  | S n' => String "_"%char (underscores n')
  end.

Definition tmp_name (w : world) : string :=
  "tmp" +:+ underscores (max_list (map String.length (first_names w))).

Definition mkdtemp_name (w : world) : string := "/" +:+ tmp_name w.

Definition py_repr (v : pyval) : string := "<value>".

(** A data set of four compounds with two response columns, and a split
    of three of them. *)
Definition total : DataFrame := {|
  columns := ["compound_id"; "smiles"; "pIC50"; "logS"];
  rows := [ {| label := 0; cells := [CStr "c1"; CStr "CCO"; CNum (Q2Qc 5); CNaN] |};
            {| label := 1; cells := [CStr "c2"; CStr "CCN"; CNum (Q2Qc 6); CNum (Q2Qc 1)] |};
            {| label := 2; cells := [CStr "c3"; CStr "CCC"; CNaN; CNum (Q2Qc 2)] |};
            {| label := 3; cells := [CStr "c4"; CStr "COC"; CNum (Q2Qc 7); CNum (Q2Qc 3)] |} ]
|}.

Definition splits (fourth : string) : DataFrame := {|
  columns := ["cmpd_id"; "subset"; "fold"];
  rows := [ {| label := 0; cells := [CStr "c1"; CStr "train"; CNum (Q2Qc 0)] |};
            {| label := 1; cells := [CStr "c2"; CStr "valid"; CNum (Q2Qc 0)] |};
            {| label := 2; cells := [CStr "c3"; CStr "test"; CNum (Q2Qc 0)] |};
            {| label := 3; cells := [CStr fourth; CStr "train"; CNum (Q2Qc 0)] |} ]
|}.

(** Weight 1 where the response is present, 0 where it is missing. *)
Definition row_weights (cols response_cols : list string) (r : Row) : list Q :=
  map (λ col, match column_index cols col with
              | Some i => match cell_at i r with CNaN => 0%Q | _ => 1%Q end
              | None => 0%Q
              end) response_cols.

Definition make_y_w (df : DataFrame) (response_cols : list string)
    : res (ndarray * ndarray) :=
  let w := {| ncols := List.length response_cols;
              arows := map (row_weights (columns df) response_cols) (rows df) |} in
  Return (w, w).

Definition calc_dist_smiles (feat_type dist_met : string) (a b : list cell)
    : res (list (cell * cell)) :=
  Return (list_prod a b).

(** Plotting calls that all succeed. *)
Definition sns_distplot (d : list (cell * cell)) : res unit := Return tt.
Definition umap_scatter (split_df total_df : DataFrame) (id_col smiles_col : string)
    : res unit := Return tt.
Definition sns_boxplot (records : list (Q * string)) : res unit := Return tt.
Definition pyplot_tight_layout (saved : list string) : res unit := Return tt.
Definition pyplot_savefig (name : string) (saved : list string) : res unit := Return tt.

End Sample.

(** A second world, with archives whose metadata is unusual (one without
    ['model_parameters'], one whose version is a number), an archive
    that holds a file and a member below that file, and a directory
    whose name ends in [.tar.gz]. *)
Module Sample2.

Definition world1 : world := {|
  cwd := ["home"; "user"];
  files := {[ ["scan"; "a.tar.gz"] := "archive:noparams";
              ["results"; "m1.tar.gz"] := "archive:good";
              ["results"; "sub"; "m2.tar.gz"] := "archive:nometa";
              ["numbers"; "n.tar.gz"] := "archive:number";
              ["stacked"; "c.tar.gz"] := "archive:stacked";
              ["mixed"; "d.tar.gz"; "inner.txt"] := "text";
              ["docs"; "readme.txt"] := "text" ]};
  dirs := ∅;
  ampl_dist_version := "1.5.2"
|}.

Definition json_loads (text : string) : option pyval :=
  if bool_decide (text = "json:noparams") then
    Some (PDict [("model_uuid", PStr "77")])
  else if bool_decide (text = "json:number") then
    Some (PDict [("model_parameters", PDict [("ampl_version", PFloat 1.5)])])
  else Sample.json_loads text.

(** The members of the archive [c.tar.gz]: the metadata file, and a
    file below a directory of the same name. *)
Definition stacked_members : list TarInfo :=
  [Sample.regular "model_metadata.json" "json:good";
   Sample.regular "model_metadata.json/x" "more"].

Definition tar_members (data : string) : res (list TarInfo) :=
  if bool_decide (data = "archive:noparams") then
    Return [Sample.regular "model_metadata.json" "json:noparams"]
  else if bool_decide (data = "archive:number") then
    Return [Sample.regular "./model_metadata.json" "json:number"]
  else if bool_decide (data = "archive:stacked") then
    Return stacked_members
  else Sample.tar_members data.

(** A split without a validation subset. *)
Definition splits_no_valid : DataFrame := {|
  columns := ["cmpd_id"; "subset"];
  rows := [ {| label := 0; cells := [CStr "c1"; CStr "train"] |};
            {| label := 1; cells := [CStr "c2"; CStr "train"] |};
            {| label := 2; cells := [CStr "c3"; CStr "test"] |};
            {| label := 3; cells := [CStr "c4"; CStr "Train"] |} ]
|}.

(** Plotting calls of which the second fails. *)
Definition sns_distplot (d : list (cell * cell)) : res unit := Return tt.
Definition umap_scatter (split_df total_df : DataFrame) (id_col smiles_col : string)
    : res unit :=
  Raise (ValueError "invalid SMILES").
Definition sns_boxplot (records : list (Q * string)) : res unit := Return tt.

(** A [savefig] that cannot write the [svg] format. *)
Definition pyplot_savefig (name : string) (saved : list string) : res unit :=
  if Str.endswith ".svg" name then Raise (ValueError "Format 'svg' is not supported")
  else Return tt.

End Sample2.

(** * The two scripts

    The calls into other packages are the variables of this section. *)

Section AMPL.

(** *** Library calls of model_version_utils.py *)

(** [json.load] on the content of a file, which it reads (decoding the
    bytes) and parses: the value, or [None] when the call raises.  It
    then raises [json_load_error]: [JSONDecodeError] for a text that is
    not a JSON document, [UnicodeDecodeError] for bytes that are not a
    text, another error for a document it cannot hold. *)
Variable json_loads : string → option pyval.
Variable json_load_error : string → exn.

(** What [open] raises for a path that names no file that can be read:
    [FileNotFoundError] where there is nothing, [IsADirectoryError] at a
    directory, [NotADirectoryError] for a path through a file,
    [PermissionError] at a file that may not be read. *)
Variable open_error : string → world → exn.

(** What [tarfile.open(mode='r:gz')] makes of the bytes of a file: the
    members of the archive in archive order, or the error it raises
    ([ReadError] for bytes that are not a gzip-compressed tar
    archive). *)
Variable tar_members : string → res (list TarInfo).

(** What [extractall(path)] does with the members of an archive in a
    given world: how it ends, and the files there are afterwards.
    [tarfile] writes the regular files below [path], but it also follows
    the links it has extracted and member names that are absolute or
    hold [".."], so it can write anywhere; it stops at the first member
    it cannot write and raises the error, leaving the members before it
    extracted. *)
Variable tar_extract :
  list TarInfo → string → world → res unit * gmap (list string) string.

(** The directory [tempfile.mkdtemp()] makes in a given world.  It did
    not exist before. *)
Variable mkdtemp_name : world → string.
Hypothesis mkdtemp_fresh : ∀ w, fresh_dir w (Path.resolve (cwd w) (mkdtemp_name w)).

(** [repr] of a value that is not a string, as [str.format] shows it. *)
Variable py_repr : pyval → string.

(** What the generator [Path(dirname).rglob(pattern)] yields over a
    loop that starts in a given world: every entry below [dirname] (a
    file, a directory or a link) whose name matches the pattern, given
    by its names below [dirname], in the order the file system lists
    them.  The generator is lazy: it reads a directory when the loop
    asks for the next entry, so what it yields can depend on what the
    loop has written by then; [rglob] is the sequence it does yield (the
    entries after one at which the loop is left are never asked
    for). *)
Variable rglob : string → string → world → list (list string).

(** How the generator ends after its last entry: it stops, or it raises
    the error of a directory it could not scan ([pathlib] passes on all
    but [PermissionError]). *)
Variable rglob_raises : string → string → world → option exn.

(** *** Library calls of compare_splits_plots.py *)
(** The array of distances [calc_dist_smiles] returns. *)
Variable dist_array : Type.

(** [chem_diversity.calc_dist_smiles(feat_type, dist_met, smiles_arr1,
    smiles_arr2)] *)
Variable calc_dist_smiles :
  string → string → list cell → list cell → res dist_array.

(** [MultitaskScaffoldSplit.make_y_w(dataframe, columns)]: the response
    values and their weights. *)
Variable make_y_w : DataFrame → list string → res (ndarray * ndarray).

(** What is assumed of [make_y_w], whose code is in another module: the
    weights are made row by row.  The weight array has one column for
    each response column, and its row for a row of the data frame
    depends on that row alone ([__init__] says it "counts the number of
    samples for each subset, for each task"). *)
Variable row_weights : list string → list string → Row → list Q.
Hypothesis make_y_w_rowwise : ∀ df cols y w,
  make_y_w df cols = Return (y, w) →
  ncols w = List.length cols
  ∧ arows w = map (row_weights (columns df) cols) (rows df).

(** [pd.read_csv(path, dtype={col: str})] *)
Variable read_csv : string → string → res DataFrame.

(** The plotting calls before a figure is saved, each with the
    [pyplot.figure()] before it: [sns.distplot] with its axis labels,
    the UMAP scatter plot of [umap_plot] (sampling, merge, fingerprints,
    embedding, [sns.scatterplot]) and [sns.boxplot]. *)
Variable sns_distplot : dist_array → res unit.
Variable umap_scatter : DataFrame → DataFrame → string → string → res unit.
Variable sns_boxplot : list (Q * string) → res unit.

(** [pyplot.tight_layout()] and [pyplot.savefig(name)], each of which
    returns or raises; the list is that of the figure files saved so
    far. *)
Variable pyplot_tight_layout : list string → res unit.
Variable pyplot_savefig : string → list string → res unit.

(** ** The functions of model_version_utils.py *)

Definition format_value (v : pyval) : string :=
  match v with
  | PStr s => s
  | _ => py_repr v
  end.

(** [open(p, 'r')] or [open(p, 'rb')] followed by reading the whole
    file. *)
Definition open_read (p : string) : st world string := λ w,
  match read_file w p with
  | Some text => (Return text, w)
  | None => (Raise (open_error p w), w)
  end.

Definition json_load (text : string) : res pyval :=
  match json_loads text with
  | Some v => Return v
  | None => Raise (json_load_error text)
  end.

Definition mkdtemp : st world string := λ w,
  let d := mkdtemp_name w in
  (Return d,
   {| cwd := cwd w;
      files := files w;
      dirs := {[ Path.resolve (cwd w) d ]} ∪ dirs w;
      ampl_dist_version := ampl_dist_version w |}).

(** [tarfile.open(filename, mode='r:gz')] *)
Definition tarfile_open (filename : string) : st world (list TarInfo) :=
  data ← open_read filename;
  lift (tar_members data).

(** [model_fp.extractall(path=tmpdir)]; the [close()] after it changes
    nothing here. *)
Definition extractall (members : list TarInfo) (path : string) : st world unit := λ w,
  let '(r, extracted) := tar_extract members path w in
  (r, {| cwd := cwd w;
         files := extracted;
         dirs := dirs w;
         ampl_dist_version := ampl_dist_version w |}).

(** [path.absolute()] for each [path] of [Path(dirname).rglob('*.tar.gz')],
    as the string that [tarfile.open] and [str.format] make of it. *)
Definition rglob_tar_gz (dirname : string) (w : world) : list string :=
  map (Path.absolute_str w dirname) (rglob dirname "*.tar.gz" w).

Definition get_ampl_version_from_json (metadata_path : string) : st world pyval :=
  text ← open_read metadata_path;
  metadata_dict ← lift (json_load text);
  model_parameters ← lift (py_get metadata_dict "model_parameters" PNone);
  lift (py_get model_parameters "ampl_version" (PStr "probably 1.0.0")).

Definition get_ampl_version_from_model (filename : string) : st world pyval :=
  tmpdir ← mkdtemp;
  model_fp ← tarfile_open filename;
  extractall model_fp tmpdir;;
  let metadata_path := Path.os_path_join tmpdir "model_metadata.json" in
  version ← get_ampl_version_from_json metadata_path;
  mret version.

(** [except (json.decoder.JSONDecodeError, FileNotFoundError)] *)
Definition skipped (e : exn) : bool :=
  match e with
  | JSONDecodeError | FileNotFoundError _ => true
  | _ => false
  end.

(** The [for] loop of [get_ampl_version_from_dir]. *)
Fixpoint scan (paths : list string) (versions : list string)
    : st world (list string) :=
  match paths with
  | [] => mret versions
  | path :: rest =>
      versions' ← try_except
        (version ← get_ampl_version_from_model path;
         mret (versions ++ [path +:+ ", " +:+ format_value version])%list)
        skipped
        (λ _, mret versions);
      scan rest versions'
  end.

(** The generator is asked for the next entry outside the [try], so an
    error it raises is not caught, whatever its class. *)
Definition get_ampl_version_from_dir (dirname : string) : st world string :=
  paths ← gets (rglob_tar_gz dirname);
  stop ← gets (rglob_raises dirname "*.tar.gz");
  versions ← scan paths [];
  match stop with
  | Some e => raise e
  | None => mret (Str.join newline versions)
  end.

(** The message of the [ValueError] of [check_version_compatible]. *)
Definition mismatch_message (input model_ampl_version ampl_version : string) : string :=
  "Version compatible check: " +:+ input +:+ " version: " +:+ String "034"%char model_ampl_version
  +:+ String "034"%char " not matching AMPL compatible version group: "
  +:+ String "034"%char ampl_version +:+ String "034"%char "".

Definition check_version_compatible (input : string) (ignore_check : bool)
    : st world bool :=
  is_file ← os_path_isfile input;
  model_ampl_version ←
    (if is_file : bool then
       version ← get_ampl_version_from_model input;
       stripped ← lift (py_strip version);
       mret (Str.slice_to 3 stripped)
     else
       lift (validate_version input);;
       mret (Str.slice_to 3 input));
  installed ← get_ampl_version;
  let ampl_version := Str.slice_to 3 installed in
  group_installed ← lift (comp_dict_getitem ampl_version);
  group_model ← lift (comp_dict_getitem model_ampl_version);
  let matched := bool_decide (group_installed = group_model) in
  if negb matched && negb ignore_check then
    raise (ValueError (mismatch_message input model_ampl_version ampl_version))
  else mret matched.

(** ** The functions of compare_splits_plots.py *)

Record SplitStats : Type := {
  ss_smiles_col : string;
  ss_id_col : string;
  ss_response_cols : list string;
  total_df : DataFrame;
  split_df : DataFrame;
  train_df : DataFrame;
  test_df : DataFrame;
  valid_df : DataFrame;
  total_y : ndarray; total_w : ndarray;
  train_y : ndarray; train_w : ndarray;
  test_y : ndarray; test_w : ndarray;
  valid_y : ndarray; valid_w : ndarray;
  dists : dist_array;
  train_fracs : list Q;
  valid_fracs : list Q;
  test_fracs : list Q
}.

(** [SplitStats._get_dists], on the fields it reads. *)
Definition _get_dists (train_df test_df : DataFrame) (smiles_col : string)
    : res dist_array :=
  train_smiles ← getitem train_df smiles_col;
  test_smiles ← getitem test_df smiles_col;
  calc_dist_smiles "ECFP" "tanimoto" train_smiles test_smiles.

(** [SplitStats._split_ratios], on the fields it reads. *)
Definition _split_ratios (total_w train_w valid_w test_w : ndarray)
    : list Q * list Q * list Q :=
  let train_fracs := np_divide (np_sum_axis0 train_w) (np_sum_axis0 total_w) in
  let valid_fracs := np_divide (np_sum_axis0 valid_w) (np_sum_axis0 total_w) in
  let test_fracs := np_divide (np_sum_axis0 test_w) (np_sum_axis0 total_w) in
  (train_fracs, valid_fracs, test_fracs).

(** [SplitStats.__init__] *)
Definition SplitStats_init (total_df split_df : DataFrame)
    (smiles_col id_col : string) (response_cols : list string) : res SplitStats :=
  '(train_df, test_df, valid_df) ← split total_df split_df id_col;
  '(total_y, total_w) ← make_y_w total_df response_cols;
  '(train_y, train_w) ← make_y_w train_df response_cols;
  '(test_y, test_w) ← make_y_w test_df response_cols;
  '(valid_y, valid_w) ← make_y_w valid_df response_cols;
  dists ← _get_dists train_df test_df smiles_col;
  let '(train_fracs, valid_fracs, test_fracs) :=
    _split_ratios total_w train_w valid_w test_w in
  mret {| ss_smiles_col := smiles_col; ss_id_col := id_col;
          ss_response_cols := response_cols;
          total_df := total_df; split_df := split_df;
          train_df := train_df; test_df := test_df; valid_df := valid_df;
          total_y := total_y; total_w := total_w;
          train_y := train_y; train_w := train_w;
          test_y := test_y; test_w := test_w;
          valid_y := valid_y; valid_w := valid_w;
          dists := dists;
          train_fracs := train_fracs; valid_fracs := valid_fracs;
          test_fracs := test_fracs |}.

(** A call [SplitStats(total_df, split_df, **kwargs)]: the parameters
    [smiles_col], [id_col] and [response_cols] of [__init__] have no
    default, so a call that leaves one out raises [TypeError]. *)
Definition SplitStats_call (total_df split_df : DataFrame)
    (kwargs : SplitStats_kwargs) : res SplitStats :=
  match kw_smiles_col kwargs, kw_id_col kwargs, kw_response_cols kwargs with
  | Some smiles_col, Some id_col, Some response_cols =>
      SplitStats_init total_df split_df smiles_col id_col response_cols
  | s, i, r =>
      Raise (TypeError ("__init__() missing required positional arguments:"
        +:+ (if s is Some _ then "" else " smiles_col")
        +:+ (if i is Some _ then "" else " id_col")
        +:+ (if r is Some _ then "" else " response_cols")))
  end.

(** The state of the plotting script is the list of the figure files
    saved so far: the names given to the [savefig] calls that have
    returned. *)
Definition tight_layout : st (list string) unit := λ saved,
  (pyplot_tight_layout saved, saved).

Definition savefig (name : string) : st (list string) unit := λ saved,
  match pyplot_savefig name saved with
  | Return _ => (Return tt, (saved ++ [name])%list)
  | Raise e => (Raise e, saved)
  end.

Definition save_figure (filename : string) : st (list string) unit :=
  tight_layout;;
  savefig (filename +:+ ".png");;
  savefig (filename +:+ ".svg").

Definition dist_hist_plot (self : SplitStats) (dist_path : string)
    : st (list string) unit :=
  lift (sns_distplot (dists self));;
  if bool_decide (0 < String.length dist_path)%nat
  then save_figure (dist_path +:+ "_dist_hist") else mret tt.

Definition umap_plot (self : SplitStats) (dist_path : string)
    : st (list string) unit :=
  lift (umap_scatter (split_df self) (total_df self) (ss_id_col self) (ss_smiles_col self));;
  if bool_decide (0 < String.length dist_path)%nat
  then save_figure (dist_path +:+ "_umap_scatter") else mret tt.

Definition subset_frac_plot (self : SplitStats) (dist_path : string)
    : st (list string) unit :=
  let dicts :=
    (map (λ f, (f, "train")) (train_fracs self)
     ++ map (λ f, (f, "test")) (test_fracs self)
     ++ map (λ f, (f, "valid")) (valid_fracs self))%list in
  lift (sns_boxplot dicts);;
  if bool_decide (0 < String.length dist_path)%nat
  then save_figure (dist_path +:+ "_frac_box") else mret tt.

Definition make_all_plots (self : SplitStats) (dist_path : string)
    : st (list string) unit :=
  dist_hist_plot self dist_path;;
  umap_plot self dist_path;;
  subset_frac_plot self dist_path.

(** The body under [if __name__ == '__main__'], after [parse_args]. *)
Definition script_main (args : Namespace) : st (list string) unit :=
  df ← lift (read_csv (csv args) (id_col args));
  split_a ← lift (read_csv (split_a args) "cmpd_id");
  ss ← lift (SplitStats_call df split_a
         {| kw_smiles_col := Some (smiles_col args);
            kw_id_col := Some (id_col args);
            kw_response_cols := None |});
  make_all_plots ss (Path.os_path_join (output_dir args) "split_a");;
  split_b ← lift (read_csv (split_b args) "cmpd_id");
  ss ← lift (SplitStats_call df split_b
         {| kw_smiles_col := Some (smiles_col args);
            kw_id_col := Some (id_col args);
            kw_response_cols := None |});
  make_all_plots ss (Path.os_path_join (output_dir args) "split_b").


(** ** Definitions used in the statements *)

(** Lines 143 to 152 of [check_version_compatible]: the two lookups in
    [comp_dict] and the comparison, as a function of the two prefixes. *)
Definition compare_groups (input model_ampl_version ampl_version : string)
    (ignore_check : bool) : res bool :=
  group_installed ← comp_dict_getitem ampl_version;
  group_model ← comp_dict_getitem model_ampl_version;
  let matched := bool_decide (group_installed = group_model) in
  if negb matched && negb ignore_check then
    Raise (ValueError (mismatch_message input model_ampl_version ampl_version))
  else Return matched.

(** What [get_ampl_version_from_model] gives on each of the paths in
    turn, every call starting in the world the one before left. *)
Fixpoint outcomes (paths : list string) (w : world) : list (string * res pyval) :=
  match paths with
  | [] => []
  | path :: rest =>
      let '(r, w') := get_ampl_version_from_model path w in
      (path, r) :: outcomes rest w'
  end.

(** The line of the result for an archive whose version was read. *)
Definition entry (o : string * res pyval) : option string :=
  match o.2 with
  | Return version => Some (o.1 +:+ ", " +:+ format_value version)
  | Raise _ => None
  end.

(** The archive raised an error that the [except] clause lets through. *)
Definition propagates (o : string * res pyval) : bool :=
  match o.2 with
  | Return _ => false
  | Raise e => negb (skipped e)
  end.

(** The [cmpd_id] values that [split_df] gives the subset [name]. *)
Definition subset_ids (split_df : DataFrame) (i_sub i_id : nat) (name : string)
    : list cell :=
  map (cell_at i_id)
      (filter (λ r, bool_decide (cell_at i_sub r = CStr name) = true) (rows split_df)).

(** [split_df] has a row that gives the identifier [id] the subset
    [name]. *)
Definition labelled (split_df : DataFrame) (i_sub i_id : nat) (id : cell)
    (name : string) : Prop :=
  ∃ r, r ∈ rows split_df ∧ cell_at i_id r = id ∧ cell_at i_sub r = CStr name.

(** What [get_ampl_version_from_json] makes of the text of a metadata
    file. *)
Definition version_of_text (text : string) : res pyval :=
  metadata_dict ← json_load text;
  model_parameters ← py_get metadata_dict "model_parameters" PNone;
  py_get model_parameters "ampl_version" (PStr "probably 1.0.0").

(** The document has a ['model_parameters'] object at its top level. *)
Definition has_model_parameters (d : pyval) : Prop :=
  ∃ items params,
    d = PDict items ∧ dict_get items "model_parameters" = Some (PDict params).

(** The check of the version [a] accepts it when the version [b] is the
    installed one. *)
Definition compatible (w : world) (a b : string) : Prop :=
  (check_version_compatible a false (set_installed b w)).1 = Return true.

(** The six files [make_all_plots] can write, in the order it writes
    them. *)
Definition figure_files (dist_path : string) : list string :=
  [dist_path +:+ "_dist_hist" +:+ ".png";
   dist_path +:+ "_dist_hist" +:+ ".svg";
   dist_path +:+ "_umap_scatter" +:+ ".png";
   dist_path +:+ "_umap_scatter" +:+ ".svg";
   dist_path +:+ "_frac_box" +:+ ".png";
   dist_path +:+ "_frac_box" +:+ ".svg"].

(** A step of the plotting script that saves the files [fs], in that
    order: from any state it adds the first [k] of them, all of them
    when it returns. *)
Definition appends (m : st (list string) unit) (fs : list string) : Prop :=
  ∀ saved, ∃ k, (k ≤ List.length fs)%nat
    ∧ (m saved).2 = (saved ++ take k fs)%list
    ∧ ((m saved).1 = Return tt → k = List.length fs).

(** ** Properties of model_version_utils.py *)

Ltac unfold_monad :=
  unfold mbind, st_bind, res_bind, mret, st_ret, res_ret, lift, raise, gets, modify.

Tactic Notation "unfold_monad" "in" hyp(H) :=
  unfold mbind, st_bind, res_bind, mret, st_ret, res_ret, lift, raise, gets, modify in H.

Lemma check_version_compatible_not_file input ignore_check w :
  read_file w input = None →
  check_version_compatible input ignore_check w =
    (validate_version input ≫= λ _,
       compare_groups input (Str.slice_to 3 input)
         (Str.slice_to 3 (ampl_dist_version w)) ignore_check,
     w).
Proof using Type.
  intros Hnf.
  unfold check_version_compatible, os_path_isfile, compare_groups, get_ampl_version.
  unfold_monad.
  rewrite Hnf. rewrite bool_decide_eq_false_2 by (intros [? ?]; discriminate).
  destruct (validate_version input) as [b|e]; [|done].
  destruct (comp_dict_getitem (Str.slice_to 3 (ampl_dist_version w))); [|done].
  destruct (comp_dict_getitem (Str.slice_to 3 input)); [|done].
  by destruct (negb _ && negb _).
Qed.

Lemma check_version_compatible_file input ignore_check w data r w' :
  read_file w input = Some data →
  get_ampl_version_from_model input w = (r, w') →
  check_version_compatible input ignore_check w =
    (version ← r;
     stripped ← py_strip version;
     compare_groups input (Str.slice_to 3 stripped)
       (Str.slice_to 3 (ampl_dist_version w')) ignore_check,
     w').
Proof using Type.
  intros Hf Hm.
  unfold check_version_compatible, os_path_isfile, compare_groups, get_ampl_version.
  unfold_monad.
  rewrite Hf. rewrite bool_decide_eq_true_2 by eauto.
  rewrite Hm. destruct r as [version|e]; [|done].
  destruct (py_strip version) as [stripped|e]; [|done].
  destruct (comp_dict_getitem (Str.slice_to 3 (ampl_dist_version w'))); [|done].
  destruct (comp_dict_getitem (Str.slice_to 3 stripped)); [|done].
  by destruct (negb _ && negb _).
Qed.

Lemma compare_groups_true input m i ignore_check g_model g_inst :
  comp_dict !! m = Some g_model →
  comp_dict !! i = Some g_inst →
  compare_groups input m i ignore_check = Return true ↔ g_inst = g_model.
Proof using Type.
  intros Hm Hi. unfold compare_groups, comp_dict_getitem. rewrite Hm, Hi.
  unfold_monad. case_bool_decide; destruct ignore_check; simpl;
    (split; [intros ?; congruence | intros ?; congruence]).
Qed.

Lemma open_read_world p w : (open_read p w).2 = w.
Proof using Type. unfold open_read. by destruct (read_file w p). Qed.

Lemma tarfile_open_world filename w : (tarfile_open filename w).2 = w.
Proof using Type.
  unfold tarfile_open, open_read. unfold_monad.
  destruct (read_file w filename) as [data|]; [|done].
  by destruct (tar_members data).
Qed.

Lemma extractall_env members path w :
  let w' := (extractall members path w).2 in
  cwd w' = cwd w ∧ dirs w' = dirs w ∧ ampl_dist_version w' = ampl_dist_version w
  ∧ files w' = (tar_extract members path w).2.
Proof using Type.
  unfold extractall. by destruct (tar_extract members path w) as [r extracted].
Qed.

Lemma get_ampl_version_from_json_world metadata_path w :
  (get_ampl_version_from_json metadata_path w).2 = w.
Proof using Type.
  unfold get_ampl_version_from_json, open_read. unfold_monad.
  destruct (read_file w metadata_path); [|done].
  destruct (json_load _); [|done].
  destruct (py_get _ _ _); [|done].
  by destruct (py_get _ _ _).
Qed.

(** [get_ampl_version_from_model] step by step: the directory is made,
    the archive is opened, its members are extracted and the metadata
    file is read; the first call that raises ends it. *)
Lemma get_ampl_version_from_model_steps filename w :
  let tmpdir := mkdtemp_name w in
  let made := (mkdtemp w).2 in
  get_ampl_version_from_model filename w =
    match (tarfile_open filename made).1 with
    | Return members =>
        match extractall members tmpdir made with
        | (Return _, extracted) =>
            get_ampl_version_from_json
              (Path.os_path_join tmpdir "model_metadata.json") extracted
        | (Raise e, extracted) => (Raise e, extracted)
        end
    | Raise e => (Raise e, made)
    end.
Proof using Type.
  intros tmpdir made.
  pose proof (tarfile_open_world filename made) as Hw.
  unfold get_ampl_version_from_model. unfold_monad.
  change (mkdtemp w) with (Return tmpdir, made). cbv beta iota.
  destruct (tarfile_open filename made) as [[members|e] w1]; cbn [fst snd] in Hw |- *;
    subst w1; [|done].
  destruct (extractall members tmpdir made) as [[[]|e] extracted]; [|done].
  by destruct (get_ampl_version_from_json _ extracted) as [[v|e] w2].
Qed.

Lemma get_ampl_version_from_model_env filename w :
  let w' := (get_ampl_version_from_model filename w).2 in
  cwd w' = cwd w ∧ ampl_dist_version w' = ampl_dist_version w.
Proof using Type.
  rewrite get_ampl_version_from_model_steps.
  destruct (tarfile_open filename (mkdtemp w).2).1 as [members|e]; [|done].
  destruct (extractall_env members (mkdtemp_name w) (mkdtemp w).2) as (Hc & _ & Hv & _).
  destruct (extractall members (mkdtemp_name w) (mkdtemp w).2) as [[[]|e] extracted];
    cbn [snd] in Hc, Hv |- *; [|done].
  by rewrite get_ampl_version_from_json_world.
Qed.


Lemma forallb_app p s1 s2 :
  Str.forallb p (s1 +:+ s2) = Str.forallb p s1 && Str.forallb p s2.
Proof using Type.
  induction s1 as [|c s1 IH]; simpl; [done|]. by rewrite IH, andb_assoc.
Qed.

(** C1.  For an input that is not an existing file, made of digits and
    periods, whose first three characters are a key of [comp_dict], and
    an installed version whose first three characters are a key too,
    [check_version_compatible] returns [True] exactly when the two keys
    have the same group.  For an input that is an existing file from
    which [get_ampl_version_from_model] reads the string [version], the
    version compared is [version.strip()[:3]]: the call behaves as the
    comparison of that prefix with the installed one, and returns [True]
    exactly when the two have the same group. *)
Theorem check_version_compatible_true_iff_same_group
    (input : string) (ignore_check : bool) (w : world) (g_inst : string) :
  comp_dict !! Str.slice_to 3 (ampl_dist_version w) = Some g_inst →
  (∀ g_model,
     (os_path_isfile input w).1 = Return false →
     version_pattern_fullmatch input = true →
     comp_dict !! Str.slice_to 3 input = Some g_model →
     (check_version_compatible input ignore_check w).1 = Return true
     ↔ g_inst = g_model)
  ∧ (∀ version w',
       (os_path_isfile input w).1 = Return true →
       get_ampl_version_from_model input w = (Return (PStr version), w') →
       check_version_compatible input ignore_check w =
         (compare_groups input (Str.slice_to 3 (Str.strip version))
            (Str.slice_to 3 (ampl_dist_version w)) ignore_check, w')
       ∧ ∀ g_model,
           comp_dict !! Str.slice_to 3 (Str.strip version) = Some g_model →
           (check_version_compatible input ignore_check w).1 = Return true
           ↔ g_inst = g_model).
Proof using Type.
  intros Hinst. split.
  - intros g_model Hnf Hvalid Hmodel.
    assert (read_file w input = None) as Hnone.
    { unfold os_path_isfile in Hnf. simpl in Hnf.
      destruct (read_file w input); [|done].
      rewrite bool_decide_eq_true_2 in Hnf by eauto. discriminate. }
    rewrite (check_version_compatible_not_file _ _ _ Hnone). simpl.
    unfold validate_version. rewrite Hvalid. unfold_monad.
    by apply compare_groups_true.
  - intros version w' Hf Hm.
    assert (∃ data, read_file w input = Some data) as [data Hdata].
    { unfold os_path_isfile in Hf. simpl in Hf.
      destruct (read_file w input); [eauto|].
      rewrite bool_decide_eq_false_2 in Hf by (intros [? ?]; discriminate). discriminate. }
    pose proof (get_ampl_version_from_model_env input w) as [_ Hv].
    rewrite Hm in Hv. simpl in Hv.
    rewrite (check_version_compatible_file _ _ _ _ _ _ Hdata Hm).
    unfold_monad. simpl. rewrite Hv. split; [done|].
    intros g_model Hmodel. simpl. by apply compare_groups_true.
Qed.

(** C5.  Two inputs that are not existing files, are made of digits and
    periods and have the same first three characters give, under the
    same installed version and the same [ignore_check], the same
    outcome: the same returned value, or an error in both runs. *)
Theorem check_version_compatible_prefix_only
    (input1 input2 : string) (ignore_check : bool) (w : world) :
  (os_path_isfile input1 w).1 = Return false →
  (os_path_isfile input2 w).1 = Return false →
  version_pattern_fullmatch input1 = true →
  version_pattern_fullmatch input2 = true →
  Str.slice_to 3 input1 = Str.slice_to 3 input2 →
  same_outcome (check_version_compatible input1 ignore_check w).1
               (check_version_compatible input2 ignore_check w).1.
Proof using Type.
  intros Hf1 Hf2 Hv1 Hv2 Hpre.
  assert (∀ input, (os_path_isfile input w).1 = Return false → read_file w input = None)
    as Hnone.
  { intros input Hnf. unfold os_path_isfile in Hnf. simpl in Hnf.
    destruct (read_file w input); [|done].
    rewrite bool_decide_eq_true_2 in Hnf by eauto. discriminate. }
  rewrite (check_version_compatible_not_file _ _ _ (Hnone _ Hf1)).
  rewrite (check_version_compatible_not_file _ _ _ (Hnone _ Hf2)).
  rewrite <- Hpre.
  unfold validate_version. rewrite Hv1, Hv2. unfold compare_groups. unfold_monad.
  cbv beta iota zeta. unfold fst.
  destruct (comp_dict_getitem (Str.slice_to 3 (ampl_dist_version w))); [|done].
  destruct (comp_dict_getitem (Str.slice_to 3 input1)); [|done].
  by destruct (negb _ && negb _).
Qed.

(** C9.  On an input that is not an existing file,
    [check_version_compatible] raises [ValueError] when the input holds
    a character that is neither a digit nor a period; for an input of
    digits and periods whose first three characters are not a key of
    [comp_dict] (such as ['1.0'], ['2.0'] and ['1.10'], whose prefix is
    ['1.1']) it raises [KeyError], which is not a [ValueError]; when the
    two prefixes are keys of different groups it raises [ValueError] if
    [ignore_check] is false and returns [False] if it is true. *)
Theorem check_version_compatible_errors (input : string) (w : world) :
  (os_path_isfile input w).1 = Return false →
  (∀ ignore_check pre c post,
     input = pre +:+ String c post → version_char c = false →
     raises (check_version_compatible input ignore_check w).1 is_ValueError)
  ∧ (∀ ignore_check,
       version_pattern_fullmatch input = true →
       comp_dict !! Str.slice_to 3 input = None →
       raises (check_version_compatible input ignore_check w).1 is_KeyError
       ∧ ¬ raises (check_version_compatible input ignore_check w).1 is_ValueError)
  ∧ (∀ input', input' ∈ ["1.0"; "2.0"; "1.10"] →
       version_pattern_fullmatch input' = true
       ∧ comp_dict !! Str.slice_to 3 input' = None)
  ∧ Str.slice_to 3 "1.10" = "1.1"
  ∧ (∀ g_inst g_model,
       version_pattern_fullmatch input = true →
       comp_dict !! Str.slice_to 3 (ampl_dist_version w) = Some g_inst →
       comp_dict !! Str.slice_to 3 input = Some g_model →
       g_inst ≠ g_model →
       raises (check_version_compatible input false w).1 is_ValueError
       ∧ (check_version_compatible input true w).1 = Return false).
Proof using Type.
  intros Hnf.
  assert (read_file w input = None) as Hnone.
  { unfold os_path_isfile in Hnf. simpl in Hnf.
    destruct (read_file w input); [|done].
    rewrite bool_decide_eq_true_2 in Hnf by eauto. discriminate. }
  split; [|split; [|split; [|split]]].
  - intros ignore_check pre c post -> Hc.
    rewrite (check_version_compatible_not_file _ _ _ Hnone). cbn [fst].
    unfold validate_version, version_pattern_fullmatch.
    rewrite forallb_app. simpl. rewrite Hc, andb_false_r, andb_false_r. done.
  - intros ignore_check Hvalid Hkey.
    rewrite (check_version_compatible_not_file _ _ _ Hnone). cbn [fst].
    unfold validate_version. rewrite Hvalid. unfold compare_groups, comp_dict_getitem.
    unfold_monad. rewrite Hkey.
    destruct (comp_dict !! Str.slice_to 3 (ampl_dist_version w)); simpl; auto.
  - intros input' Hin.
    repeat (apply elem_of_cons in Hin as [->|Hin]; [by vm_compute|]).
    by apply elem_of_nil in Hin.
  - reflexivity.
  - intros g_inst g_model Hvalid Hinst Hmodel Hne.
    rewrite !(check_version_compatible_not_file _ _ _ Hnone). cbn [fst].
    unfold validate_version. rewrite Hvalid. unfold compare_groups, comp_dict_getitem.
    unfold_monad. rewrite Hinst, Hmodel.
    rewrite bool_decide_eq_false_2 by done. done.
Qed.

(** C3.  When the metadata file holds a JSON document whose top level is
    an object with a ['model_parameters'] object inside,
    [get_ampl_version_from_json] returns the value of ['ampl_version'] in
    that object, and ['probably 1.0.0'] when that object has no such
    key. *)
Theorem get_ampl_version_from_json_value
    (metadata_path text : string) (w : world) (top params : list (string * pyval)) :
  read_file w metadata_path = Some text →
  json_loads text = Some (PDict top) →
  dict_get top "model_parameters" = Some (PDict params) →
  (∀ v, dict_get params "ampl_version" = Some v →
        get_ampl_version_from_json metadata_path w = (Return v, w))
  ∧ (dict_get params "ampl_version" = None →
     get_ampl_version_from_json metadata_path w = (Return (PStr "probably 1.0.0"), w)).
Proof using Type.
  intros Hread Hjson Hparams.
  unfold get_ampl_version_from_json, open_read, json_load, py_get. unfold_monad.
  rewrite Hread, Hjson, Hparams. simpl.
  split; [intros v Hv | intros Hv]; by rewrite Hv.
Qed.

(** *** Reading an archive *)

Lemma string_app_cons x (a b : string) : String x a +:+ b = String x (a +:+ b).
Proof using Type. reflexivity. Qed.

Lemma string_app_assoc (a b c : string) : (a +:+ b) +:+ c = a +:+ (b +:+ c).
Proof using Type.
  induction a as [|x a IH]; [done|].
  by rewrite !string_app_cons, IH.
Qed.

(** C6.  When [tarfile] opens the archive, [get_ampl_version_from_model]
    extracts its members into the directory [mkdtemp] has just made,
    which did not exist before and holds no file.  When the extraction
    returns, the call gives what [get_ampl_version_from_json] gives on
    the file [model_metadata.json] of that directory as the extraction
    left it: the same value or error, in the same world.  When the
    extraction raises, the call raises that error and the metadata file
    is not read. *)
Theorem get_ampl_version_from_model_after_extraction
    (filename : string) (members : list TarInfo) (w : world) :
  let tmpdir := mkdtemp_name w in
  let metadata_path := Path.os_path_join tmpdir "model_metadata.json" in
  let made := (mkdtemp w).2 in
  (tarfile_open filename made).1 = Return members →
  (fresh_dir w (Path.resolve (cwd w) tmpdir)
   ∧ dirs made = {[ Path.resolve (cwd w) tmpdir ]} ∪ dirs w
   ∧ files made = files w)
  ∧ (∀ extracted,
       extractall members tmpdir made = (Return tt, extracted) →
       get_ampl_version_from_model filename w
       = get_ampl_version_from_json metadata_path extracted)
  ∧ (∀ e extracted,
       extractall members tmpdir made = (Raise e, extracted) →
       get_ampl_version_from_model filename w = (Raise e, extracted)).
Proof using mkdtemp_fresh.
  intros tmpdir metadata_path made Hopen.
  split; [split; [apply mkdtemp_fresh|done]|].
  rewrite get_ampl_version_from_model_steps. fold tmpdir made. rewrite Hopen.
  split.
  - by intros extracted ->.
  - by intros e extracted ->.
Qed.

(** What the scan of a directory meets: an archive that [tarfile]
    cannot open, one that it cannot extract, and one whose metadata
    file cannot be read or parsed.  In each case the error is the one
    [get_ampl_version_from_model] raises. *)

Lemma archive_not_opened_raises filename e w :
  (tarfile_open filename (mkdtemp w).2).1 = Raise e →
  (get_ampl_version_from_model filename w).1 = Raise e.
Proof using Type.
  intros Hopen. rewrite get_ampl_version_from_model_steps. by rewrite Hopen.
Qed.

Lemma archive_not_extracted_raises filename members e w :
  (tarfile_open filename (mkdtemp w).2).1 = Return members →
  (extractall members (mkdtemp_name w) (mkdtemp w).2).1 = Raise e →
  (get_ampl_version_from_model filename w).1 = Raise e.
Proof using Type.
  intros Hopen Hex. rewrite get_ampl_version_from_model_steps. rewrite Hopen.
  destruct (extractall _ _ _) as [[[]|e'] extracted]; cbn [fst] in Hex |- *; congruence.
Qed.

Lemma archive_metadata_result filename members extracted w :
  (tarfile_open filename (mkdtemp w).2).1 = Return members →
  extractall members (mkdtemp_name w) (mkdtemp w).2 = (Return tt, extracted) →
  get_ampl_version_from_model filename w
  = get_ampl_version_from_json
      (Path.os_path_join (mkdtemp_name w) "model_metadata.json") extracted.
Proof using Type.
  intros Hopen Hex. rewrite get_ampl_version_from_model_steps. by rewrite Hopen, Hex.
Qed.

(** *** The scan of a directory *)

Lemma scan_cons path rest versions w :
  scan (path :: rest) versions w =
  match get_ampl_version_from_model path w with
  | (Return version, w') =>
      scan rest (versions ++ [path +:+ ", " +:+ format_value version]) w'
  | (Raise e, w') => if skipped e then scan rest versions w' else (Raise e, w')
  end.
Proof using Type.
  simpl. unfold try_except. unfold_monad.
  destruct (get_ampl_version_from_model path w) as [[version|e] w']; [done|].
  by destruct (skipped e).
Qed.

Lemma outcomes_paths paths w : map fst (outcomes paths w) = paths.
Proof using Type.
  revert w. induction paths as [|path rest IH]; intros w; [done|].
  simpl. destruct (get_ampl_version_from_model path w) as [r w'].
  simpl. by rewrite IH.
Qed.

Lemma scan_all_read_or_skipped paths versions w :
  (∀ o, o ∈ outcomes paths w → propagates o = false) →
  (scan paths versions w).1 = Return (versions ++ omap entry (outcomes paths w)).
Proof using Type.
  revert versions w. induction paths as [|path rest IH]; intros versions w Hall.
  - simpl. by rewrite app_nil_r.
  - rewrite scan_cons. simpl in Hall |- *.
    destruct (get_ampl_version_from_model path w) as [[version|e] w'].
    + rewrite IH.
      * simpl. unfold entry at 2. simpl. by rewrite <- app_assoc.
      * intros o Ho. apply Hall. by apply list_elem_of_further.
    + assert (skipped e = true) as ->.
      { specialize (Hall (path, Raise e) (list_elem_of_here _ _)).
        unfold propagates in Hall. simpl in Hall. by destruct (skipped e). }
      rewrite IH; [done|].
      intros o Ho. apply Hall. by apply list_elem_of_further.
Qed.

Lemma scan_first_other_error paths versions w pre path e post :
  outcomes paths w = (pre ++ (path, Raise e) :: post)%list →
  (∀ o, o ∈ pre → propagates o = false) →
  skipped e = false →
  (scan paths versions w).1 = Raise e.
Proof using Type.
  revert versions w pre. induction paths as [|p rest IH]; intros versions w pre Hout Hpre He.
  - by destruct pre.
  - rewrite scan_cons. simpl in Hout.
    destruct (get_ampl_version_from_model p w) as [r w'].
    destruct pre as [|o pre]; simpl in Hout.
    + injection Hout as -> -> Hrest. by rewrite He.
    + injection Hout as <- Hrest.
      assert (propagates (p, r) = false) as Hp by (apply Hpre, list_elem_of_here).
      assert (∀ o, o ∈ pre → propagates o = false) as Hpre'
        by (intros o Ho; apply Hpre; by apply list_elem_of_further).
      destruct r as [version|e'].
      * by apply (IH _ _ pre).
      * unfold propagates in Hp. simpl in Hp.
        destruct (skipped e'); [|done]. by apply (IH _ _ pre).
Qed.

Lemma skipped_iff e :
  skipped e = true ↔ e = JSONDecodeError ∨ ∃ p, e = FileNotFoundError p.
Proof using Type.
  split.
  - destruct e; try discriminate; intros _; [by left|right; by eexists].
  - by intros [->|[p ->]].
Qed.

(** C10.  [get_ampl_version_from_dir] calls
    [get_ampl_version_from_model] on the absolute path of every entry
    that [rglob] yields for ['*.tar.gz'], once each and in that order,
    each call in the world the one before left.  When every call either
    gives a version or raises an error that is skipped, and the listing
    ends without an error, the result is the lines ['path, version'] of
    the archives that gave a version, joined by newlines; the archives
    that raised are left out.  When a call raises another error, after
    calls that did not, that error is raised; so is an error with which
    the listing itself ends, whatever its class.  The errors skipped are
    [JSONDecodeError] and [FileNotFoundError] and no other: not
    tarfile's [ReadError], and not the [IsADirectoryError] of a
    directory whose name ends in [.tar.gz]. *)
Theorem get_ampl_version_from_dir_scan (dirname : string) (w : world) :
  let outs := outcomes (rglob_tar_gz dirname w) w in
  map fst outs = map (Path.absolute_str w dirname) (rglob dirname "*.tar.gz" w)
  ∧ ((∀ o, o ∈ outs → propagates o = false) →
     (get_ampl_version_from_dir dirname w).1
     = match rglob_raises dirname "*.tar.gz" w with
       | None => Return (Str.join newline (omap entry outs))
       | Some e => Raise e
       end)
  ∧ (∀ pre path e post,
       outs = (pre ++ (path, Raise e) :: post)%list →
       (∀ o, o ∈ pre → propagates o = false) →
       skipped e = false →
       (get_ampl_version_from_dir dirname w).1 = Raise e)
  ∧ (∀ e, skipped e = true ↔ e = JSONDecodeError ∨ ∃ p, e = FileNotFoundError p)
  ∧ skipped ReadError = false
  ∧ (∀ p, skipped (IsADirectoryError p) = false).
Proof using Type.
  intros outs. split_and!.
  - unfold outs. by rewrite outcomes_paths.
  - intros Hall. unfold get_ampl_version_from_dir. unfold_monad.
    pose proof (scan_all_read_or_skipped (rglob_tar_gz dirname w) [] w Hall) as Hscan.
    destruct (scan _ [] w) as [r w']. simpl in Hscan. subst r.
    by destruct (rglob_raises dirname "*.tar.gz" w).
  - intros pre path e post Hout Hpre He. unfold get_ampl_version_from_dir. unfold_monad.
    pose proof (scan_first_other_error _ [] w _ _ _ _ Hout Hpre He) as Hscan.
    destruct (scan _ [] w) as [r w']. simpl in Hscan. subst r. done.
  - apply skipped_iff.
  - done.
  - done.
Qed.

(** ** Properties of compare_splits_plots.py *)

Lemma mask_select_map {A} (p : A → bool) (l : list A) :
  mask_select (map p l) l = filter (λ x, p x = true) l.
Proof using Type.
  induction l as [|x l IH]; [done|].
  simpl. rewrite filter_cons, IH.
  destruct (p x); by case_decide.
Qed.

Lemma subset_rows_filter total_df split_df id_col name i i_sub i_id :
  column_index (columns total_df) id_col = Some i →
  column_index (columns split_df) "subset" = Some i_sub →
  column_index (columns split_df) "cmpd_id" = Some i_id →
  subset_rows total_df split_df id_col name =
    Return {| columns := columns total_df;
              rows := filter (λ r, bool_decide
                        (cell_at i r ∈ subset_ids split_df i_sub i_id name) = true)
                        (rows total_df) |}.
Proof using Type.
  intros Hi Hsub Hid. unfold subset_rows, getitem, boolean_index. simpl.
  rewrite Hi, Hsub. unfold_monad. simpl. rewrite Hid.
  unfold isin, series_eq. rewrite !map_map.
  rewrite (mask_select_map (λ r, bool_decide (cell_at i_sub r = CStr name))).
  by rewrite (mask_select_map (λ r, bool_decide (cell_at i r ∈ _))).
Qed.

Lemma elem_of_subset_ids split_df i_sub i_id name id :
  id ∈ subset_ids split_df i_sub i_id name ↔ labelled split_df i_sub i_id id name.
Proof using Type.
  unfold subset_ids, labelled. rewrite list_elem_of_fmap. split.
  - intros (r & -> & [Hr Hin]%list_elem_of_filter).
    apply bool_decide_eq_true in Hr. eauto.
  - intros (r & Hin & Hid & Hsub). exists r. split; [done|].
    apply list_elem_of_filter. split; [by apply bool_decide_eq_true|done].
Qed.

Lemma NoDup_map_inj {A B} (f : A → B) (l : list A) x y :
  NoDup (map f l) → x ∈ l → y ∈ l → f x = f y → x = y.
Proof using Type.
  induction l as [|a l IH]; intros Hnd Hx Hy Hf.
  - by apply elem_of_nil in Hx.
  - simpl in Hnd. apply NoDup_cons in Hnd as [Hnotin Hnd].
    apply elem_of_cons in Hx as [->|Hx]; apply elem_of_cons in Hy as [->|Hy].
    + done.
    + exfalso. apply Hnotin. rewrite Hf. apply list_elem_of_fmap. eauto.
    + exfalso. apply Hnotin. rewrite <- Hf. apply list_elem_of_fmap. eauto.
    + by apply IH.
Qed.

Lemma labelled_once split_df i_sub i_id id name1 name2 :
  NoDup (map (cell_at i_id) (rows split_df)) →
  labelled split_df i_sub i_id id name1 →
  labelled split_df i_sub i_id id name2 →
  name1 = name2.
Proof using Type.
  intros Hnd (r1 & Hin1 & Hid1 & Hs1) (r2 & Hin2 & Hid2 & Hs2).
  assert (r1 = r2) as -> by (apply (NoDup_map_inj _ _ _ _ Hnd); congruence).
  congruence.
Qed.

(** C4.  When [total_df] has the identifier column, [split_df] has the
    columns ['cmpd_id'] and ['subset'], and no identifier occurs twice in
    [split_df], [split] returns three data frames (train, test, valid)
    made of rows of [total_df] such that a row whose identifier is
    labelled ['train'] is in the first only, ['test'] in the second
    only, ['valid'] in the third only, a row whose identifier does not
    occur in [split_df] is in none, and no row is in two of them. *)
Theorem split_by_label (total_df split_df : DataFrame) (id_col : string)
    (i i_sub i_id : nat) :
  column_index (columns total_df) id_col = Some i →
  column_index (columns split_df) "subset" = Some i_sub →
  column_index (columns split_df) "cmpd_id" = Some i_id →
  NoDup (map (cell_at i_id) (rows split_df)) →
  ∃ train test valid,
    split total_df split_df id_col = Return (train, test, valid)
    ∧ (∀ r, r ∈ rows train ∨ r ∈ rows test ∨ r ∈ rows valid → r ∈ rows total_df)
    ∧ (∀ r, r ∈ rows total_df →
         labelled split_df i_sub i_id (cell_at i r) "train" →
         r ∈ rows train ∧ (r ∉ rows test) ∧ (r ∉ rows valid))
    ∧ (∀ r, r ∈ rows total_df →
         labelled split_df i_sub i_id (cell_at i r) "test" →
         (r ∉ rows train) ∧ r ∈ rows test ∧ (r ∉ rows valid))
    ∧ (∀ r, r ∈ rows total_df →
         labelled split_df i_sub i_id (cell_at i r) "valid" →
         (r ∉ rows train) ∧ (r ∉ rows test) ∧ r ∈ rows valid)
    ∧ (∀ r, r ∈ rows total_df →
         (cell_at i r ∉ map (cell_at i_id) (rows split_df)) →
         (r ∉ rows train) ∧ (r ∉ rows test) ∧ (r ∉ rows valid))
    ∧ (∀ r, ¬ (r ∈ rows train ∧ r ∈ rows test)
            ∧ ¬ (r ∈ rows train ∧ r ∈ rows valid)
            ∧ ¬ (r ∈ rows test ∧ r ∈ rows valid)).
Proof using Type.
  intros Hi Hsub Hid Hnd.
  unfold split.
  rewrite !(subset_rows_filter _ _ _ _ _ _ _ Hi Hsub Hid). unfold_monad.
  eexists _, _, _. split; [reflexivity|]. cbn [rows].
  assert (∀ name r,
    r ∈ filter (λ r, bool_decide
            (cell_at i r ∈ subset_ids split_df i_sub i_id name) = true) (rows total_df)
    ↔ r ∈ rows total_df ∧ labelled split_df i_sub i_id (cell_at i r) name) as Hmem.
  { intros name r. rewrite list_elem_of_filter, bool_decide_eq_true, elem_of_subset_ids.
    split; intros [? ?]; by split. }
  assert (∀ r n1 n2, labelled split_df i_sub i_id (cell_at i r) n1 →
                     labelled split_df i_sub i_id (cell_at i r) n2 → n1 = n2) as Hone.
  { intros r n1 n2. by apply labelled_once. }
  assert (∀ r name, (cell_at i r ∉ map (cell_at i_id) (rows split_df)) →
                    ¬ labelled split_df i_sub i_id (cell_at i r) name) as Hnot.
  { intros r name Hnotin (r' & Hin' & Hid' & _). apply Hnotin.
    rewrite <- Hid'. apply list_elem_of_fmap. eauto. }
  assert (∀ r n1 n2, n1 ≠ n2 →
            labelled split_df i_sub i_id (cell_at i r) n1 →
            r ∉ filter (λ r, bool_decide
              (cell_at i r ∈ subset_ids split_df i_sub i_id n2) = true) (rows total_df))
    as Hother.
  { intros r n1 n2 Hne Hl [_ Hl']%Hmem. by apply Hne, (Hone r). }
  split_and!.
  - intros r [Ht|[Ht|Ht]]; apply Hmem in Ht; exact (proj1 Ht).
  - intros r Hin Hl. split_and!; [by apply Hmem | by apply (Hother r "train")..].
  - intros r Hin Hl. split_and!; [|by apply Hmem|]; by apply (Hother r "test").
  - intros r Hin Hl. split_and!; [by apply (Hother r "valid")..| by apply Hmem].
  - intros r Hin Hnotin.
    split_and!; intros [_ Hl]%Hmem; by apply (Hnot _ _ Hnotin) in Hl.
  - intros r. split_and!; intros [[_ H1]%Hmem [_ H2]%Hmem];
      by pose proof (Hone _ _ _ H1 H2).
Qed.

Lemma SplitStats_init_inv total splits smiles_col id_col response_cols ss :
  SplitStats_init total splits smiles_col id_col response_cols = Return ss →
  split total splits id_col = Return (train_df ss, test_df ss, valid_df ss)
  ∧ make_y_w total response_cols = Return (total_y ss, total_w ss)
  ∧ make_y_w (train_df ss) response_cols = Return (train_y ss, train_w ss)
  ∧ make_y_w (test_df ss) response_cols = Return (test_y ss, test_w ss)
  ∧ make_y_w (valid_df ss) response_cols = Return (valid_y ss, valid_w ss)
  ∧ _get_dists (train_df ss) (test_df ss) smiles_col = Return (dists ss)
  ∧ _split_ratios (total_w ss) (train_w ss) (valid_w ss) (test_w ss)
    = (train_fracs ss, valid_fracs ss, test_fracs ss)
  ∧ total_df ss = total ∧ split_df ss = splits
  ∧ ss_smiles_col ss = smiles_col ∧ ss_id_col ss = id_col
  ∧ ss_response_cols ss = response_cols.
Proof using Type.
  unfold SplitStats_init. unfold_monad.
  destruct (split total splits id_col) as [[[train test] valid]|] eqn:H1; [|done].
  destruct (make_y_w total response_cols) as [[ty tw]|] eqn:H2; [|done].
  destruct (make_y_w train response_cols) as [[trainy trainw]|] eqn:H3; [|done].
  destruct (make_y_w test response_cols) as [[testy testw]|] eqn:H4; [|done].
  destruct (make_y_w valid response_cols) as [[validy validw]|] eqn:H5; [|done].
  destruct (_get_dists train test smiles_col) as [d|] eqn:H6; [|done].
  unfold _split_ratios. intros [= <-]. simpl. by split_and!.
Qed.

(** C7.  In every [SplitStats] object the field [dists] is what
    [calc_dist_smiles] returns for ['ECFP'], ['tanimoto'], the SMILES
    values of the train subset and the SMILES values of the test subset,
    in that order, the two subsets being the first and second results of
    [split]; so two objects whose train and test subsets have the same
    SMILES values have the same [dists], whatever their validation
    subsets are. *)
Theorem dists_from_train_and_test (total splits : DataFrame)
    (smiles_col id_col : string) (response_cols : list string) (ss : SplitStats) :
  SplitStats_init total splits smiles_col id_col response_cols = Return ss →
  (∃ train_smiles test_smiles,
     split total splits id_col = Return (train_df ss, test_df ss, valid_df ss)
     ∧ getitem (train_df ss) smiles_col = Return train_smiles
     ∧ getitem (test_df ss) smiles_col = Return test_smiles
     ∧ calc_dist_smiles "ECFP" "tanimoto" train_smiles test_smiles = Return (dists ss))
  ∧ (∀ total' splits' id_col' response_cols' ss',
       SplitStats_init total' splits' smiles_col id_col' response_cols' = Return ss' →
       getitem (train_df ss') smiles_col = getitem (train_df ss) smiles_col →
       getitem (test_df ss') smiles_col = getitem (test_df ss) smiles_col →
       dists ss' = dists ss).
Proof using Type.
  intros Hinit.
  destruct (SplitStats_init_inv _ _ _ _ _ _ Hinit) as (Hsplit & _ & _ & _ & _ & Hd & _).
  unfold _get_dists in Hd. unfold_monad in Hd.
  destruct (getitem (train_df ss) smiles_col) as [train_smiles|] eqn:Htrain; [|done].
  destruct (getitem (test_df ss) smiles_col) as [test_smiles|] eqn:Htest; [|done].
  split; [by exists train_smiles, test_smiles|].
  intros total' splits' id_col' response_cols' ss' Hinit' Htrain' Htest'.
  destruct (SplitStats_init_inv _ _ _ _ _ _ Hinit') as (_ & _ & _ & _ & _ & Hd' & _).
  unfold _get_dists in Hd'. unfold_monad in Hd'.
  rewrite Htrain', Htest' in Hd'. congruence.
Qed.

Lemma split_inv total splits id_col train test valid :
  split total splits id_col = Return (train, test, valid) →
  ∃ i i_sub i_id,
    let part name := {|
      columns := columns total;
      rows := filter (λ r, bool_decide
                (cell_at i r ∈ subset_ids splits i_sub i_id name) = true) (rows total) |} in
    column_index (columns total) id_col = Some i
    ∧ column_index (columns splits) "subset" = Some i_sub
    ∧ column_index (columns splits) "cmpd_id" = Some i_id
    ∧ train = part "train" ∧ test = part "test" ∧ valid = part "valid".
Proof using Type.
  intros Hsplit.
  destruct (column_index (columns total) id_col) as [i|] eqn:Hi; cycle 1.
  { unfold split, subset_rows, getitem in Hsplit. by rewrite Hi in Hsplit. }
  destruct (column_index (columns splits) "subset") as [i_sub|] eqn:Hsub; cycle 1.
  { unfold split, subset_rows, getitem in Hsplit. by rewrite Hi, Hsub in Hsplit. }
  destruct (column_index (columns splits) "cmpd_id") as [i_id|] eqn:Hid; cycle 1.
  { unfold split, subset_rows, getitem, boolean_index in Hsplit.
    simpl in Hsplit. by rewrite Hi, Hsub, Hid in Hsplit. }
  exists i, i_sub, i_id. unfold split in Hsplit.
  rewrite !(subset_rows_filter _ _ _ _ _ _ _ Hi Hsub Hid) in Hsplit.
  unfold_monad in Hsplit. injection Hsplit as <- <- <-. by split_and!.
Qed.

Lemma exactly_one_of_three (p1 p2 p3 : bool) (R : Prop) :
  R →
  ¬ ((p1 = true ∧ R) ∧ (p2 = true ∧ R)) →
  ¬ ((p1 = true ∧ R) ∧ (p3 = true ∧ R)) →
  ¬ ((p2 = true ∧ R) ∧ (p3 = true ∧ R)) →
  (p1 = true ∧ R) ∨ (p2 = true ∧ R) ∨ (p3 = true ∧ R) →
  (p1 = true ∧ p2 = false ∧ p3 = false)
  ∨ (p1 = false ∧ p2 = true ∧ p3 = false)
  ∨ (p1 = false ∧ p2 = false ∧ p3 = true).
Proof using Type.
  intros HR D1 D2 D3 Hcover.
  destruct p1, p2, p3;
    try (exfalso; apply D1; by repeat split);
    try (exfalso; apply D2; by repeat split);
    try (exfalso; apply D3; by repeat split).
  - left. by repeat split.
  - right; left. by repeat split.
  - right; right. by repeat split.
  - destruct Hcover as [[? _]|[[? _]|[? _]]]; discriminate.
Qed.

Lemma Qsum_three_filters (f : Row → Q) (p1 p2 p3 : Row → bool) (l : list Row) :
  (∀ r, r ∈ l →
     (p1 r = true ∧ p2 r = false ∧ p3 r = false)
     ∨ (p1 r = false ∧ p2 r = true ∧ p3 r = false)
     ∨ (p1 r = false ∧ p2 r = false ∧ p3 r = true)) →
  (Qsum (map f (filter (λ r, p1 r = true) l))
   + Qsum (map f (filter (λ r, p2 r = true) l))
   + Qsum (map f (filter (λ r, p3 r = true) l))
   == Qsum (map f l))%Q.
Proof using Type.
  induction l as [|x l IH]; intros Hone.
  - simpl. ring.
  - assert ((Qsum (map f (filter (λ r, p1 r = true) l))
             + Qsum (map f (filter (λ r, p2 r = true) l))
             + Qsum (map f (filter (λ r, p3 r = true) l))
             == Qsum (map f l))%Q) as IH'.
    { apply IH. intros r Hr. apply Hone. by apply list_elem_of_further. }
    rewrite !filter_cons.
    destruct (Hone x (list_elem_of_here _ _)) as [(-> & -> & ->)|[(-> & -> & ->)|(-> & -> & ->)]];
      repeat case_decide; try done; simpl; rewrite <- IH'; ring.
Qed.

Lemma nth_np_sum_axis0 (a : ndarray) (j : nat) :
  (j < ncols a)%nat →
  nth j (np_sum_axis0 a) 0%Q = Qsum (map (λ r, nth j r 0%Q) (arows a)).
Proof using Type.
  intros Hj. unfold np_sum_axis0.
  rewrite (nth_indep _ 0%Q (Qsum (map (λ r, nth (ncols a) r 0%Q) (arows a))))
    by (by rewrite length_map, length_seq).
  rewrite (map_nth (λ j, Qsum (map (λ r, nth j r 0%Q) (arows a)))).
  by rewrite seq_nth.
Qed.

Lemma length_np_sum_axis0 (a : ndarray) : List.length (np_sum_axis0 a) = ncols a.
Proof using Type. unfold np_sum_axis0. by rewrite length_map, length_seq. Qed.

Lemma nth_np_divide (a b : list Q) (j : nat) :
  (j < List.length a)%nat → (j < List.length b)%nat →
  nth j (np_divide a b) 0%Q = (nth j a 0 / nth j b 0)%Q.
Proof using Type.
  revert b j. induction a as [|x a IH]; intros [|y b] [|j] Ha Hb; simpl in *; try lia.
  - done.
  - apply IH; lia.
Qed.

(** C8.  In a [SplitStats] object whose three subsets are pairwise
    disjoint and together hold every row of [total_df], and whose total
    weight is not zero in any response column, the three fractions of
    [_split_ratios] add up to one in every response column. *)
Theorem split_ratios_sum_to_one (total splits : DataFrame)
    (smiles_col id_col : string) (response_cols : list string) (ss : SplitStats) :
  SplitStats_init total splits smiles_col id_col response_cols = Return ss →
  (∀ r, ¬ (r ∈ rows (train_df ss) ∧ r ∈ rows (test_df ss))
        ∧ ¬ (r ∈ rows (train_df ss) ∧ r ∈ rows (valid_df ss))
        ∧ ¬ (r ∈ rows (test_df ss) ∧ r ∈ rows (valid_df ss))) →
  (∀ r, r ∈ rows total →
        r ∈ rows (train_df ss) ∨ r ∈ rows (test_df ss) ∨ r ∈ rows (valid_df ss)) →
  (∀ j, (j < List.length response_cols)%nat →
        ¬ (nth j (np_sum_axis0 (total_w ss)) 0 == 0)%Q) →
  List.length (train_fracs ss) = List.length response_cols
  ∧ List.length (valid_fracs ss) = List.length response_cols
  ∧ List.length (test_fracs ss) = List.length response_cols
  ∧ ∀ j, (j < List.length response_cols)%nat →
      (nth j (train_fracs ss) 0 + nth j (valid_fracs ss) 0 + nth j (test_fracs ss) 0
       == 1)%Q.
Proof using make_y_w_rowwise.
  intros Hinit Hdisj Hcover Hnz.
  destruct (SplitStats_init_inv _ _ _ _ _ _ Hinit)
    as (Hsplit & Htotal & Htrain & Htest & Hvalid & _ & Hfracs & _).
  apply split_inv in Hsplit as (i & i_sub & i_id & _ & _ & _ & Etrain & Etest & Evalid).
  apply make_y_w_rowwise in Htotal as [Nt At].
  apply make_y_w_rowwise in Htrain as [Ntr Atr].
  apply make_y_w_rowwise in Htest as [Nte Ate].
  apply make_y_w_rowwise in Hvalid as [Nva Ava].
  unfold _split_ratios in Hfracs. injection Hfracs as <- <- <-.
  unfold np_divide. rewrite !length_zip_with, !length_np_sum_axis0.
  rewrite Nt, Ntr, Nte, Nva.
  split_and!; [lia..|].
  intros j Hj. fold (np_divide (np_sum_axis0 (train_w ss)) (np_sum_axis0 (total_w ss))).
  fold (np_divide (np_sum_axis0 (valid_w ss)) (np_sum_axis0 (total_w ss))).
  fold (np_divide (np_sum_axis0 (test_w ss)) (np_sum_axis0 (total_w ss))).
  rewrite !nth_np_divide by (rewrite length_np_sum_axis0; lia).
  specialize (Hnz j Hj).
  set (t := nth j (np_sum_axis0 (total_w ss)) 0%Q) in *.
  assert ((nth j (np_sum_axis0 (train_w ss)) 0
           + nth j (np_sum_axis0 (test_w ss)) 0
           + nth j (np_sum_axis0 (valid_w ss)) 0 == t)%Q) as Hsum.
  { unfold t. rewrite !nth_np_sum_axis0 by lia.
    rewrite At, Atr, Ate, Ava, !map_map.
    rewrite Etrain, Etest, Evalid in *. cbn [rows columns] in *.
    apply (Qsum_three_filters
      (λ r, nth j (row_weights (columns total) response_cols r) 0%Q)
      (λ r, bool_decide (cell_at i r ∈ subset_ids splits i_sub i_id "train"))
      (λ r, bool_decide (cell_at i r ∈ subset_ids splits i_sub i_id "test"))
      (λ r, bool_decide (cell_at i r ∈ subset_ids splits i_sub i_id "valid"))).
    intros r Hr. destruct (Hdisj r) as (D1 & D2 & D3). specialize (Hcover r Hr).
    rewrite !list_elem_of_filter in D1.
    rewrite !list_elem_of_filter in D2.
    rewrite !list_elem_of_filter in D3.
    rewrite !list_elem_of_filter in Hcover.
    apply (exactly_one_of_three _ _ _ (r ∈ rows total)); assumption. }
  rewrite <- Hsum in Hnz |- *. field. exact Hnz.
Qed.

(** When the plotting and saving calls succeed and [dist_path] is not
    empty, [make_all_plots] saves the three figures, each as [.png] and
    [.svg]. *)
Lemma make_all_plots_saves (self : SplitStats) (dist_path : string)
    (written : list string) :
  dist_path ≠ "" →
  sns_distplot (dists self) = Return tt →
  umap_scatter (split_df self) (total_df self) (ss_id_col self) (ss_smiles_col self)
    = Return tt →
  sns_boxplot (map (λ f, (f, "train")) (train_fracs self)
               ++ map (λ f, (f, "test")) (test_fracs self)
               ++ map (λ f, (f, "valid")) (valid_fracs self)) = Return tt →
  (∀ saved, pyplot_tight_layout saved = Return tt) →
  (∀ name saved, pyplot_savefig name saved = Return tt) →
  make_all_plots self dist_path written =
    (Return tt,
     written ++ [dist_path +:+ "_dist_hist" +:+ ".png";
                 dist_path +:+ "_dist_hist" +:+ ".svg";
                 dist_path +:+ "_umap_scatter" +:+ ".png";
                 dist_path +:+ "_umap_scatter" +:+ ".svg";
                 dist_path +:+ "_frac_box" +:+ ".png";
                 dist_path +:+ "_frac_box" +:+ ".svg"]).
Proof using Type.
  intros Hpath Hhist Humap Hbox Hlayout Hsave.
  assert (bool_decide (0 < String.length dist_path)%nat = true) as Hlen.
  { apply bool_decide_eq_true. destruct dist_path; [done|simpl; lia]. }
  unfold make_all_plots, dist_hist_plot, umap_plot, subset_frac_plot.
  unfold_monad. rewrite Hhist, Humap, Hbox, Hlen.
  unfold save_figure, savefig, tight_layout. unfold_monad.
  repeat (rewrite ?Hlayout, ?Hsave; cbv beta iota).
  by rewrite <- !app_assoc, !string_app_assoc.
Qed.

(** C2.  The script never gets to a plot: each call of [SplitStats] in
    the main block leaves out [response_cols], which [__init__] requires,
    so once the data set and split A are read the first call raises
    [TypeError]; whatever the command line, the script ends in an error
    and no figure is written. *)
Theorem script_main_raises_before_plotting (args : Namespace) (written : list string) :
  script_main args written =
    (df ← read_csv (csv args) (id_col args);
     split_a ← read_csv (split_a args) "cmpd_id";
     Raise (TypeError "__init__() missing required positional arguments: response_cols"),
     written).
Proof using Type.
  unfold script_main, SplitStats_call. unfold_monad. cbn [kw_response_cols].
  destruct (read_csv (csv args) (id_col args)) as [df|]; [|done].
  by destruct (read_csv (split_a args) "cmpd_id") as [sa|].
Qed.

(** ** Further properties of model_version_utils.py *)

(** *** What reading an archive leaves behind *)


(** *** Errors of the metadata *)

Lemma version_without_model_parameters text d :
  json_loads text = Some d →
  ¬ has_model_parameters d →
  version_of_text text = Raise (AttributeError "get").
Proof using Type.
  intros Hjson Hnot. unfold version_of_text, json_load. rewrite Hjson. unfold_monad.
  destruct d as [| | | | |l|items]; try done.
  cbn [py_get]. destruct (dict_get items "model_parameters") as [mp|] eqn:Hmp; [|done].
  cbn [default]. destruct mp as [| | | | |l|params]; try done.
  exfalso. apply Hnot. by exists items, params.
Qed.

(** X7.  [get_ampl_version_from_json] catches nothing and never changes
    the world: it raises what [open] raises when the file cannot be
    read and what [json.load] raises when its content gives no value,
    and it raises [AttributeError] when the document parses but has no
    ['model_parameters'] object at its top level (the top level is not
    an object, the key is absent, or its value is not an object). *)
Theorem get_ampl_version_from_json_errors (metadata_path : string) (w : world) :
  (get_ampl_version_from_json metadata_path w).2 = w
  ∧ (∀ e, (open_read metadata_path w).1 = Raise e →
       (get_ampl_version_from_json metadata_path w).1 = Raise e)
  ∧ (∀ text, (open_read metadata_path w).1 = Return text →
       (∀ e, json_load text = Raise e →
          (get_ampl_version_from_json metadata_path w).1 = Raise e)
       ∧ (∀ d, json_load text = Return d → ¬ has_model_parameters d →
            (get_ampl_version_from_json metadata_path w).1
            = Raise (AttributeError "get"))).
Proof using Type.
  split; [apply get_ampl_version_from_json_world|].
  unfold get_ampl_version_from_json. unfold_monad.
  pose proof (open_read_world metadata_path w) as Hw.
  destruct (open_read metadata_path w) as [[text|e0] w1]; cbn [fst snd] in Hw |- *;
    subst w1; split.
  - intros e [=].
  - intros text' [= <-]. split.
    + by intros e ->.
    + intros d Hjson Hnot.
      assert (json_loads text = Some d) as Hloads.
      { unfold json_load in Hjson. destruct (json_loads text); congruence. }
      pose proof (version_without_model_parameters text d Hloads Hnot) as Hv.
      unfold version_of_text in Hv. unfold_monad in Hv. rewrite Hjson in Hv |- *.
      destruct (py_get d "model_parameters" PNone) as [mp|]; [|done].
      by destruct (py_get mp "ampl_version" (PStr "probably 1.0.0")).
  - by intros e [= <-].
  - intros text [=].
Qed.

(** X8.  An archive that is opened and extracted, and whose metadata
    file then holds a document that parses but has no
    ['model_parameters'] object, is not skipped by the scan: the
    [AttributeError] it gives ends [get_ampl_version_from_dir]'s loop at
    that archive, whatever was collected before, and a directory whose
    listing starts with such an archive gives that error. *)
Theorem scan_stops_without_model_parameters
    (path text : string) (members : list TarInfo) (d : pyval)
    (rest versions : list string) (w extracted : world) :
  let tmpdir := mkdtemp_name w in
  let metadata_path := Path.os_path_join tmpdir "model_metadata.json" in
  (tarfile_open path (mkdtemp w).2).1 = Return members →
  extractall members tmpdir (mkdtemp w).2 = (Return tt, extracted) →
  (open_read metadata_path extracted).1 = Return text →
  json_load text = Return d →
  ¬ has_model_parameters d →
  (get_ampl_version_from_model path w).1 = Raise (AttributeError "get")
  ∧ (scan (path :: rest) versions w).1 = Raise (AttributeError "get")
  ∧ ∀ dirname, rglob_tar_gz dirname w = path :: rest →
      (get_ampl_version_from_dir dirname w).1 = Raise (AttributeError "get").
Proof using Type.
  intros tmpdir metadata_path Hopen Hex Hread Hjson Hnot.
  assert ((get_ampl_version_from_model path w).1 = Raise (AttributeError "get")) as Hres.
  { rewrite (archive_metadata_result path members extracted w Hopen Hex).
    fold tmpdir metadata_path.
    unfold get_ampl_version_from_json. unfold_monad.
    pose proof (open_read_world metadata_path extracted) as Hw.
    destruct (open_read metadata_path extracted) as [[text'|e0] w1];
      cbn [fst snd] in Hw, Hread |- *; subst w1; [|done].
    injection Hread as ->.
    assert (json_loads text = Some d) as Hloads.
    { unfold json_load in Hjson. destruct (json_loads text); congruence. }
    pose proof (version_without_model_parameters text d Hloads Hnot) as Hv.
    unfold version_of_text in Hv. unfold_monad in Hv. rewrite Hjson in Hv |- *.
    destruct (py_get d "model_parameters" PNone) as [mp|]; [|done].
    by destruct (py_get mp "ampl_version" (PStr "probably 1.0.0")). }
  assert (∀ vs, (scan (path :: rest) vs w).1 = Raise (AttributeError "get")) as Hscan.
  { intros vs. rewrite scan_cons.
    by destruct (get_ampl_version_from_model path w) as [[version|e] w']; simplify_eq/=. }
  split_and!; [done..|].
  intros dirname Hlist. unfold get_ampl_version_from_dir. unfold_monad.
  rewrite Hlist. specialize (Hscan []).
  destruct (scan (path :: rest) [] w) as [r w']. cbn [fst] in Hscan. by subst r.
Qed.

(** *** The version check *)

Lemma not_file_read input w :
  (os_path_isfile input w).1 = Return false → read_file w input = None.
Proof using Type.
  unfold os_path_isfile. cbn [fst]. intros Hnf.
  destruct (read_file w input); [|done].
  rewrite bool_decide_eq_true_2 in Hnf by eauto. discriminate.
Qed.

Lemma compare_groups_false input m i ignore_check :
  compare_groups input m i ignore_check = Return false → ignore_check = true.
Proof using Type.
  unfold compare_groups. unfold_monad.
  destruct (comp_dict_getitem i) as [gi|]; [|done].
  destruct (comp_dict_getitem m) as [gm|]; [|done].
  case_bool_decide; destruct ignore_check; simpl; congruence.
Qed.

(** X9.  On an input that is not an existing file,
    [check_version_compatible] changes nothing, whether it returns or
    raises: no archive is opened, no temporary directory is made and no
    file is written. *)
Theorem check_version_compatible_not_file_effects
    (input : string) (ignore_check : bool) (w : world) :
  (os_path_isfile input w).1 = Return false →
  (check_version_compatible input ignore_check w).2 = w.
Proof using Type.
  intros Hnf%not_file_read.
  by rewrite (check_version_compatible_not_file _ _ _ Hnf).
Qed.

(** X10.  [check_version_compatible] returns [False] only when
    [ignore_check] is set: without it, versions of different groups give
    an error and never a returned [False]. *)
Theorem check_version_compatible_false_only_when_ignored
    (input : string) (ignore_check : bool) (w : world) :
  (check_version_compatible input ignore_check w).1 = Return false →
  ignore_check = true.
Proof using Type.
  destruct (read_file w input) as [data|] eqn:Hread.
  - destruct (get_ampl_version_from_model input w) as [r w'] eqn:Hm.
    rewrite (check_version_compatible_file _ _ _ _ _ _ Hread Hm). cbn [fst].
    unfold_monad. destruct r as [version|]; [|done].
    destruct (py_strip version) as [stripped|]; [|done].
    apply compare_groups_false.
  - rewrite (check_version_compatible_not_file _ _ _ Hread). cbn [fst].
    unfold_monad. destruct (validate_version input); [|done].
    apply compare_groups_false.
Qed.

Lemma compatible_iff w a b :
  read_file w a = None →
  version_pattern_fullmatch a = true →
  compatible w a b ↔
  ∃ g, comp_dict !! Str.slice_to 3 a = Some g ∧ comp_dict !! Str.slice_to 3 b = Some g.
Proof using Type.
  intros Hnf Hvalid. unfold compatible.
  rewrite check_version_compatible_not_file by done. cbn [fst set_installed ampl_dist_version].
  unfold validate_version. rewrite Hvalid. unfold_monad.
  unfold compare_groups, comp_dict_getitem. unfold_monad.
  destruct (comp_dict !! Str.slice_to 3 b) as [gb|].
  - destruct (comp_dict !! Str.slice_to 3 a) as [ga|].
    + case_bool_decide as Heq; cbn [negb andb].
      * subst. split; [by exists ga|done].
      * split; [done|]. intros (g & [= <-] & [= <-]). done.
    + split; [done|]. by intros (g & ? & _).
  - split; [done|]. by intros (g & _ & ?).
Qed.

(** X11.  Among version strings of digits and periods that are not
    files, being accepted by the check is an equivalence: a version
    whose prefix is in [comp_dict] is compatible with itself, and
    compatibility is symmetric (swapping the checked and the installed
    version) and transitive. *)
Theorem compatible_is_an_equivalence (w : world) (a b c : string) :
  read_file w a = None → read_file w b = None →
  version_pattern_fullmatch a = true →
  version_pattern_fullmatch b = true →
  (is_Some (comp_dict !! Str.slice_to 3 a) → compatible w a a)
  ∧ (compatible w a b → compatible w b a)
  ∧ (compatible w a b → compatible w b c → compatible w a c).
Proof using Type.
  intros Ha Hb Va Vb. rewrite !compatible_iff by done. split_and!.
  - intros [g Hg]. by exists g.
  - intros (g & ? & ?). by exists g.
  - intros (g & Hga & Hgb) (g' & Hgb' & Hgc). exists g. split; [done|]. congruence.
Qed.

(** X12.  The installed version is never validated and only its first
    three characters count: on an input that is not a file, two
    installed versions with the same first three characters (such as
    [1.5.0] and [1.5.1.dev3]) give the same result, error message
    included. *)
Theorem check_version_compatible_installed_prefix_only
    (input v1 v2 : string) (ignore_check : bool) (w : world) :
  read_file w input = None →
  Str.slice_to 3 v1 = Str.slice_to 3 v2 →
  (check_version_compatible input ignore_check (set_installed v1 w)).1
  = (check_version_compatible input ignore_check (set_installed v2 w)).1.
Proof using Type.
  intros Hnf Hpre.
  rewrite !check_version_compatible_not_file by done.
  cbn [fst set_installed ampl_dist_version]. by rewrite Hpre.
Qed.

(** X13.  On an existing file the errors of reading the archive are not
    caught: what [get_ampl_version_from_model] raises,
    [check_version_compatible] raises; and a version in the metadata
    that is not a string (a number, [null]) gives [AttributeError],
    whatever [ignore_check] is. *)
Theorem check_version_compatible_file_errors
    (input : string) (ignore_check : bool) (w : world) :
  (os_path_isfile input w).1 = Return true →
  (∀ e, (get_ampl_version_from_model input w).1 = Raise e →
        (check_version_compatible input ignore_check w).1 = Raise e)
  ∧ (∀ version, (get_ampl_version_from_model input w).1 = Return version →
        (∀ s, version ≠ PStr s) →
        (check_version_compatible input ignore_check w).1
        = Raise (AttributeError "strip")).
Proof using Type.
  intros Hf.
  assert (∃ data, read_file w input = Some data) as [data Hread].
  { unfold os_path_isfile in Hf. cbn [fst] in Hf.
    destruct (read_file w input); [eauto|].
    rewrite bool_decide_eq_false_2 in Hf by (intros [? ?]; discriminate). discriminate. }
  destruct (get_ampl_version_from_model input w) as [r w'] eqn:Hm.
  rewrite (check_version_compatible_file _ _ _ _ _ _ Hread Hm). cbn [fst].
  unfold_monad. split.
  - by intros e ->.
  - intros version -> Hns. destruct version; try done. by destruct (Hns s).
Qed.

(** *** What a scan leaves behind *)



(** X5.  When [rglob] yields nothing and ends without an error (as for
    an empty directory, a missing one, or a path that is a file),
    [get_ampl_version_from_dir] returns the empty string and changes
    nothing: no temporary directory is made. *)
Theorem get_ampl_version_from_dir_no_archive (dirname : string) (w : world) :
  rglob dirname "*.tar.gz" w = [] →
  rglob_raises dirname "*.tar.gz" w = None →
  get_ampl_version_from_dir dirname w = (Return "", w).
Proof using Type.
  intros Hnone Hends. unfold get_ampl_version_from_dir, rglob_tar_gz. unfold_monad.
  by rewrite Hnone, Hends.
Qed.

(** ** Further properties of compare_splits_plots.py *)

(** X14.  For data frames that have the columns it reads, [split] gives
    three data frames with the columns of [total_df] whose rows are rows
    of [total_df] in their order; a row is in a subset exactly when
    [split_df] has a row that gives its identifier that subset's label,
    so an identifier that [split_df] lists twice with two labels puts
    the row in two subsets, and a label other than the three puts it in
    none. *)
Theorem split_rows (total_df split_df : DataFrame) (id_col : string)
    (i i_sub i_id : nat) :
  column_index (columns total_df) id_col = Some i →
  column_index (columns split_df) "subset" = Some i_sub →
  column_index (columns split_df) "cmpd_id" = Some i_id →
  ∃ train test valid,
    split total_df split_df id_col = Return (train, test, valid)
    ∧ (columns train = columns total_df ∧ columns test = columns total_df
       ∧ columns valid = columns total_df)
    ∧ (rows train `sublist_of` rows total_df ∧ rows test `sublist_of` rows total_df
       ∧ rows valid `sublist_of` rows total_df)
    ∧ ∀ r,
        (r ∈ rows train ↔
           r ∈ rows total_df ∧ labelled split_df i_sub i_id (cell_at i r) "train")
        ∧ (r ∈ rows test ↔
             r ∈ rows total_df ∧ labelled split_df i_sub i_id (cell_at i r) "test")
        ∧ (r ∈ rows valid ↔
             r ∈ rows total_df ∧ labelled split_df i_sub i_id (cell_at i r) "valid").
Proof using Type.
  intros Hi Hsub Hid. unfold split.
  rewrite !(subset_rows_filter _ _ _ _ _ _ _ Hi Hsub Hid). unfold_monad.
  eexists _, _, _. split; [reflexivity|]. cbn [rows columns].
  split; [done|]. split; [split_and!; apply sublist_filter|].
  intros r. split_and!;
    rewrite list_elem_of_filter, bool_decide_eq_true, elem_of_subset_ids;
    (split; intros [? ?]; by split).
Qed.

(** X15.  [split] raises [KeyError] for the first column it cannot
    find: the identifier column of [total_df], then ['subset'] and then
    ['cmpd_id'] of [split_df]. *)
Theorem split_missing_column (total_df split_df : DataFrame) (id_col : string) :
  (column_index (columns total_df) id_col = None →
   split total_df split_df id_col = Raise (KeyError id_col))
  ∧ (is_Some (column_index (columns total_df) id_col) →
     column_index (columns split_df) "subset" = None →
     split total_df split_df id_col = Raise (KeyError "subset"))
  ∧ (is_Some (column_index (columns total_df) id_col) →
     is_Some (column_index (columns split_df) "subset") →
     column_index (columns split_df) "cmpd_id" = None →
     split total_df split_df id_col = Raise (KeyError "cmpd_id")).
Proof using Type.
  unfold split, subset_rows, getitem, boolean_index. cbn [columns]. split_and!.
  - by intros ->.
  - by intros [i ->] ->.
  - by intros [i ->] [i_sub ->] ->.
Qed.

Lemma length_three_filters {A} (p1 p2 p3 : A → Prop)
    `{∀ x, Decision (p1 x)} `{∀ x, Decision (p2 x)} `{∀ x, Decision (p3 x)}
    (l : list A) :
  (∀ x, x ∈ l → ¬ (p1 x ∧ p2 x) ∧ ¬ (p1 x ∧ p3 x) ∧ ¬ (p2 x ∧ p3 x)) →
  (List.length (filter p1 l) + List.length (filter p2 l) + List.length (filter p3 l)
   ≤ List.length l)%nat.
Proof using Type.
  induction l as [|x l IH]; intros Hex; [simpl; lia|].
  assert (List.length (filter p1 l) + List.length (filter p2 l)
          + List.length (filter p3 l) ≤ List.length l)%nat as IH'
    by (apply IH; intros y Hy; apply Hex; by apply list_elem_of_further).
  destruct (Hex x (list_elem_of_here _ _)) as (H12 & H13 & H23).
  rewrite !filter_cons.
  destruct (decide (p1 x)), (decide (p2 x)), (decide (p3 x)); simpl;
    try lia; exfalso; (by apply H12) || (by apply H13) || (by apply H23).
Qed.

(** X16.  When no identifier occurs twice in [split_df], the three
    subsets of [split] together have at most as many rows as
    [total_df]: no row is counted twice. *)
Theorem split_sizes (total_df split_df : DataFrame) (id_col : string)
    (train test valid : DataFrame) (i_id : nat) :
  split total_df split_df id_col = Return (train, test, valid) →
  column_index (columns split_df) "cmpd_id" = Some i_id →
  NoDup (map (cell_at i_id) (rows split_df)) →
  (List.length (rows train) + List.length (rows test) + List.length (rows valid)
   ≤ List.length (rows total_df))%nat.
Proof using Type.
  intros Hsplit Hid Hnd.
  apply split_inv in Hsplit
    as (i & i_sub & i_id' & _ & _ & Hid' & -> & -> & ->).
  rewrite Hid in Hid'. injection Hid' as <-. cbn [rows].
  apply length_three_filters. intros r _.
  rewrite !bool_decide_eq_true, !elem_of_subset_ids.
  split_and!; intros [H1 H2];
    by pose proof (labelled_once _ _ _ _ _ _ Hnd H1 H2).
Qed.

Lemma Qsum_nonneg {A} (f : A → Q) (l : list A) :
  (∀ x, x ∈ l → (0 <= f x)%Q) → (0 <= Qsum (map f l))%Q.
Proof using Type.
  induction l as [|x l IH]; intros Hpos; simpl; [apply Qle_refl|].
  apply Qle_trans with (0 + 0)%Q; [apply Qle_refl|].
  apply Qplus_le_compat; [apply Hpos, list_elem_of_here|].
  apply IH. intros y Hy. by apply Hpos, list_elem_of_further.
Qed.

Lemma Qsum_sublist_le {A} (f : A → Q) (l1 l2 : list A) :
  l1 `sublist_of` l2 →
  (∀ x, x ∈ l2 → (0 <= f x)%Q) →
  (Qsum (map f l1) <= Qsum (map f l2))%Q.
Proof using Type.
  induction 1 as [|x l1 l2 Hsub IH|x l1 l2 Hsub IH]; intros Hpos; simpl.
  - apply Qle_refl.
  - apply Qplus_le_compat; [apply Qle_refl|].
    apply IH. intros y Hy. by apply Hpos, list_elem_of_further.
  - apply Qle_trans with (0 + Qsum (map f l2))%Q.
    + rewrite Qplus_0_l. apply IH. intros y Hy. by apply Hpos, list_elem_of_further.
    + apply Qplus_le_compat; [apply Hpos, list_elem_of_here|apply Qle_refl].
Qed.

(** The fractions of a [SplitStats] object in terms of the weights of
    the rows. *)
Lemma SplitStats_fracs total splits smiles_col id_col response_cols ss :
  SplitStats_init total splits smiles_col id_col response_cols = Return ss →
  (rows (train_df ss) `sublist_of` rows total
   ∧ rows (valid_df ss) `sublist_of` rows total
   ∧ rows (test_df ss) `sublist_of` rows total)
  ∧ ∀ j, (j < List.length response_cols)%nat →
      let weight df :=
        Qsum (map (λ r, nth j (row_weights (columns total) response_cols r) 0%Q)
                  (rows df)) in
      nth j (np_sum_axis0 (total_w ss)) 0%Q = weight total
      ∧ nth j (train_fracs ss) 0%Q = (weight (train_df ss) / weight total)%Q
      ∧ nth j (valid_fracs ss) 0%Q = (weight (valid_df ss) / weight total)%Q
      ∧ nth j (test_fracs ss) 0%Q = (weight (test_df ss) / weight total)%Q.
Proof using make_y_w_rowwise.
  intros Hinit.
  destruct (SplitStats_init_inv _ _ _ _ _ _ Hinit)
    as (Hsplit & Htotal & Htrain & Htest & Hvalid & _ & Hfracs & _).
  apply split_inv in Hsplit as (i & i_sub & i_id & _ & _ & _ & Etrain & Etest & Evalid).
  apply make_y_w_rowwise in Htotal as [Nt At].
  apply make_y_w_rowwise in Htrain as [Ntr Atr].
  apply make_y_w_rowwise in Htest as [Nte Ate].
  apply make_y_w_rowwise in Hvalid as [Nva Ava].
  unfold _split_ratios in Hfracs. injection Hfracs as <- <- <-.
  split.
  - rewrite Etrain, Evalid, Etest. cbn [rows]. split_and!; apply sublist_filter.
  - intros j Hj weight.
    rewrite !nth_np_divide by (rewrite length_np_sum_axis0; lia).
    rewrite !nth_np_sum_axis0 by lia.
    rewrite At, Atr, Ate, Ava, !map_map.
    assert (columns (train_df ss) = columns total) as -> by by rewrite Etrain.
    assert (columns (valid_df ss) = columns total) as -> by by rewrite Evalid.
    assert (columns (test_df ss) = columns total) as -> by by rewrite Etest.
    done.
Qed.

(** X17.  When the weights [make_y_w] gives are not negative and the
    total weight of a response column is not zero, each of the three
    fractions of that column lies between 0 and 1. *)
Theorem split_ratios_between_zero_and_one (total splits : DataFrame)
    (smiles_col id_col : string) (response_cols : list string) (ss : SplitStats) :
  SplitStats_init total splits smiles_col id_col response_cols = Return ss →
  (∀ r j, r ∈ rows total →
          (0 <= nth j (row_weights (columns total) response_cols r) 0)%Q) →
  ∀ j, (j < List.length response_cols)%nat →
    ¬ (nth j (np_sum_axis0 (total_w ss)) 0 == 0)%Q →
    (0 <= nth j (train_fracs ss) 0 <= 1)%Q
    ∧ (0 <= nth j (valid_fracs ss) 0 <= 1)%Q
    ∧ (0 <= nth j (test_fracs ss) 0 <= 1)%Q.
Proof using make_y_w_rowwise.
  intros Hinit Hpos j Hj Hnz.
  destruct (SplitStats_fracs _ _ _ _ _ _ Hinit) as [(S1 & S2 & S3) Hfr].
  destruct (Hfr j Hj) as (Et & -> & -> & ->). rewrite Et in Hnz.
  set (f := λ r, nth j (row_weights (columns total) response_cols r) 0%Q) in *.
  assert (∀ r, r ∈ rows total → (0 <= f r)%Q) as Hf by (intros r Hr; by apply Hpos).
  assert (0 < Qsum (map f (rows total)))%Q as Ht.
  { pose proof (Qsum_nonneg f (rows total) Hf) as Hge.
    apply Qle_lteq in Hge as [Hlt|Heq]; [done|].
    exfalso. apply Hnz. by symmetry. }
  assert (∀ l, l `sublist_of` rows total →
    (0 <= Qsum (map f l) / Qsum (map f (rows total)) <= 1)%Q) as Hbound.
  { intros l Hl. split.
    - apply Qle_shift_div_l; [done|]. rewrite Qmult_0_l.
      apply Qsum_nonneg. intros r Hr. apply Hf. by eapply elem_of_sublist.
    - apply Qle_shift_div_r; [done|]. rewrite Qmult_1_l. by apply Qsum_sublist_le. }
  split_and!; by apply Hbound.
Qed.

(** X18.  In a [SplitStats] object whose validation subset has no rows
    (no compound of the data set is labelled ['valid']), the validation
    fraction is zero in every response column whose total weight is not
    zero. *)
Theorem split_ratios_of_empty_subset (total splits : DataFrame)
    (smiles_col id_col : string) (response_cols : list string) (ss : SplitStats) :
  SplitStats_init total splits smiles_col id_col response_cols = Return ss →
  rows (valid_df ss) = [] →
  ∀ j, (j < List.length response_cols)%nat →
    ¬ (nth j (np_sum_axis0 (total_w ss)) 0 == 0)%Q →
    (nth j (valid_fracs ss) 0 == 0)%Q.
Proof using make_y_w_rowwise.
  intros Hinit Hempty j Hj Hnz.
  destruct (SplitStats_fracs _ _ _ _ _ _ Hinit) as [_ Hfr].
  destruct (Hfr j Hj) as (Et & _ & -> & _). rewrite Et in Hnz.
  rewrite Hempty. simpl. by field.
Qed.

(** *** The files saved *)

Lemma appends_seq m1 m2 fs1 fs2 :
  appends m1 fs1 → appends m2 fs2 → appends (m1;; m2) (fs1 ++ fs2).
Proof using Type.
  intros H1 H2 saved. unfold_monad.
  destruct (H1 saved) as (k1 & Hk1 & Hs1 & Hr1).
  destruct (m1 saved) as [[[]|e] s1]; cbn [fst snd] in Hs1, Hr1 |- *.
  - specialize (Hr1 eq_refl). subst k1 s1. rewrite firstn_all.
    destruct (H2 (saved ++ fs1)%list) as (k2 & Hk2 & Hs2 & Hr2).
    exists (List.length fs1 + k2)%nat. rewrite length_app. split_and!.
    + lia.
    + rewrite Hs2, take_app_add', <- app_assoc; done.
    + intros Hret. by rewrite (Hr2 Hret).
  - exists k1. rewrite length_app. split_and!; [lia| |done].
    by rewrite Hs1, take_app_le.
Qed.

Lemma appends_call (r : res unit) : appends (lift r) [].
Proof using Type. intros saved. exists 0%nat. cbn. by rewrite app_nil_r. Qed.

Lemma appends_tight_layout : appends tight_layout [].
Proof using Type. intros saved. exists 0%nat. cbn. by rewrite app_nil_r. Qed.

Lemma appends_savefig name : appends (savefig name) [name].
Proof using Type.
  intros saved. unfold savefig.
  destruct (pyplot_savefig name saved) as [[]|e].
  - exists 1%nat. cbn. by split_and!.
  - exists 0%nat. cbn. rewrite app_nil_r. split_and!; [lia|done|done].
Qed.

Lemma appends_save_figure filename :
  appends (save_figure filename) [filename +:+ ".png"; filename +:+ ".svg"].
Proof using Type.
  unfold save_figure.
  apply (appends_seq _ _ [] [_; _]); [apply appends_tight_layout|].
  apply (appends_seq _ _ [_] [_]); apply appends_savefig.
Qed.

Lemma appends_plot (r : res unit) (dist_path suffix : string) :
  appends (lift r;;
           if bool_decide (0 < String.length dist_path)%nat
           then save_figure (dist_path +:+ suffix) else mret tt)
    (if bool_decide (0 < String.length dist_path)%nat
     then [dist_path +:+ suffix +:+ ".png"; dist_path +:+ suffix +:+ ".svg"] else []).
Proof using Type.
  apply (appends_seq _ _ [] _); [apply appends_call|].
  case_bool_decide.
  - rewrite <- !string_app_assoc. apply appends_save_figure.
  - intros saved. exists 0%nat. cbn. by rewrite app_nil_r.
Qed.

Lemma appends_make_all_plots (self : SplitStats) (dist_path : string) :
  appends (make_all_plots self dist_path)
    (if bool_decide (0 < String.length dist_path)%nat
     then figure_files dist_path else []).
Proof using Type.
  unfold make_all_plots, dist_hist_plot, umap_plot, subset_frac_plot.
  pose proof (appends_seq _ _ _ _ (appends_plot (sns_distplot (dists self)) dist_path "_dist_hist")
    (appends_seq _ _ _ _
       (appends_plot (umap_scatter (split_df self) (total_df self) (ss_id_col self)
                        (ss_smiles_col self)) dist_path "_umap_scatter")
       (appends_plot (sns_boxplot
          (map (λ f, (f, "train")) (train_fracs self)
           ++ map (λ f, (f, "test")) (test_fracs self)
           ++ map (λ f, (f, "valid")) (valid_fracs self))) dist_path "_frac_box"))) as H.
  by case_bool_decide.
Qed.

(** X19.  [make_all_plots] only adds to the files saved, and what it
    adds is a start of the list of the six figure files, in the order
    [_dist_hist.png], [_dist_hist.svg], [_umap_scatter.png],
    [_umap_scatter.svg], [_frac_box.png], [_frac_box.svg]: nothing when
    [dist_path] is empty, all six when [dist_path] is not empty and the
    call returns, and the files saved before the first call that raises
    (a plotting call, [tight_layout] or [savefig]) when it does not. *)
Theorem make_all_plots_written (self : SplitStats) (dist_path : string)
    (written : list string) :
  ∃ k, (k ≤ 6)%nat
    ∧ (make_all_plots self dist_path written).2
      = (written ++ take k (figure_files dist_path))%list
    ∧ (dist_path = "" → k = 0%nat)
    ∧ (dist_path ≠ "" →
       (make_all_plots self dist_path written).1 = Return tt → k = 6%nat).
Proof using Type.
  destruct (appends_make_all_plots self dist_path written) as (k & Hk & Hs & Hr).
  exists k. destruct dist_path as [|c p].
  - rewrite bool_decide_eq_false_2 in Hk by (simpl; lia).
    rewrite bool_decide_eq_false_2 in Hs by (simpl; lia).
    cbn [List.length] in Hk. assert (k = 0%nat) as -> by lia.
    split_and!; [lia|by rewrite Hs|done|done].
  - rewrite bool_decide_eq_true_2 in Hk by (simpl; lia).
    rewrite bool_decide_eq_true_2 in Hs by (simpl; lia).
    rewrite bool_decide_eq_true_2 in Hr by (simpl; lia).
    split_and!; [done|done|done|]. intros _ Hret. by apply Hr.
Qed.

End AMPL.

(** * The sample satisfies what the section assumes *)

Lemma split_no_sep sep s :
  Str.forallb (λ c, negb (bool_decide (c = sep))) s = true →
  Str.split sep s = [s].
Proof.
  induction s as [|c s IH]; simpl; [done|].
  intros [Hc Hs]%andb_true_iff. apply negb_true_iff in Hc. rewrite Hc.
  by rewrite (IH Hs).
Qed.

Lemma underscores_no_slash n :
  Str.forallb (λ c, negb (bool_decide (c = "/"%char))) (Sample.underscores n) = true.
Proof. induction n as [|n IH]; simpl; [done|]. exact IH. Qed.

Lemma length_underscores n : String.length (Sample.underscores n) = n.
Proof. induction n as [|n IH]; simpl; [done|]. by rewrite IH. Qed.

Lemma sample_tmp_resolved w :
  Path.resolve (cwd w) (Sample.mkdtemp_name w) = [Sample.tmp_name w].
Proof.
  unfold Sample.mkdtemp_name, Sample.tmp_name.
  set (u := Sample.underscores _).
  change ("/" +:+ "tmp" +:+ u) with (String "/" (String "t" (String "m" (String "p" u)))).
  change ("tmp" +:+ u) with (String "t" (String "m" (String "p" u))).
  unfold Path.resolve. cbn [Path.is_abs Str.startswith].
  rewrite bool_decide_eq_true_2 by done. cbn [andb].
  change (Str.split "/" (String "/" ?s)) with ("" :: Str.split "/" s).
  rewrite (split_no_sep "/" (String "t" (String "m" (String "p" u))))
    by apply underscores_no_slash.
  reflexivity.
Qed.

Lemma sample_mkdtemp_fresh w :
  fresh_dir w (Path.resolve (cwd w) (Sample.mkdtemp_name w)).
Proof.
  rewrite sample_tmp_resolved.
  assert (∀ k, k ∈ (map_to_list (files w)).*1 ++ elements (dirs w) →
               hd "" k ≠ Sample.tmp_name w) as Hlong.
  { intros k Hk Heq.
    assert (String.length (hd "" k)
            ≤ max_list (map String.length (Sample.first_names w)))%nat as Hle.
    { apply max_list_elem_of_le. apply list_elem_of_fmap. exists (hd "" k).
      split; [done|]. unfold Sample.first_names. apply list_elem_of_fmap. eauto. }
    rewrite Heq in Hle. unfold Sample.tmp_name in Hle.
    change ("tmp" +:+ ?u) with (String "t" (String "m" (String "p" u))) in Hle.
    simpl in Hle. rewrite length_underscores in Hle. lia. }
  split.
  - intros Hin. apply (Hlong [Sample.tmp_name w]); [|done].
    apply elem_of_app. right. by apply elem_of_elements.
  - intros k [data Hk] [rest ->]. apply (Hlong ([Sample.tmp_name w] ++ rest)); [|done].
    apply elem_of_app. left. apply list_elem_of_fmap.
    exists ([Sample.tmp_name w] ++ rest, data). split; [done|].
    by apply elem_of_map_to_list.
Qed.

Lemma sample_make_y_w_rowwise df cols y w :
  Sample.make_y_w df cols = Return (y, w) →
  ncols w = List.length cols
  ∧ arows w = map (Sample.row_weights (columns df) cols) (rows df).
Proof. intros [= <- <-]. done. Qed.

(** * The theorems at the sample inputs *)

(** At the sample: the version [1.4.7] and the good archive (version
    [1.4.1]) against the installed [1.5.2]. *)
Lemma check_version_compatible_true_iff_same_group_witness :
  ((check_version_compatible Sample.json_loads Sample.json_load_error Sample.open_error
      Sample.tar_members Sample.tar_extract Sample.mkdtemp_name
      "1.4.7" false Sample.world0).1 = Return true
   ↔ "group2" = "group2")
  ∧ ((check_version_compatible Sample.json_loads Sample.json_load_error Sample.open_error
      Sample.tar_members Sample.tar_extract Sample.mkdtemp_name
        "/models/good.tar.gz" false Sample.world0).1 = Return true
     ↔ "group2" = "group2").
Proof.
  split.
  - apply (check_version_compatible_true_iff_same_group
      Sample.json_loads Sample.json_load_error Sample.open_error
      Sample.tar_members Sample.tar_extract Sample.mkdtemp_name
             "1.4.7" false Sample.world0 "group2"); reflexivity.
  - eapply (check_version_compatible_true_iff_same_group
      Sample.json_loads Sample.json_load_error Sample.open_error
      Sample.tar_members Sample.tar_extract Sample.mkdtemp_name
              "/models/good.tar.gz" false Sample.world0 "group2" eq_refl).
    + reflexivity.
    + vm_compute. reflexivity.
    + reflexivity.
Defined.

(** At the sample: [1.5.0] and [1.5.9.3]. *)
Lemma check_version_compatible_prefix_only_witness :
  same_outcome
    (check_version_compatible Sample.json_loads Sample.json_load_error Sample.open_error
      Sample.tar_members Sample.tar_extract Sample.mkdtemp_name
       "1.5.0" false Sample.world0).1
    (check_version_compatible Sample.json_loads Sample.json_load_error Sample.open_error
      Sample.tar_members Sample.tar_extract Sample.mkdtemp_name
       "1.5.9.3" false Sample.world0).1.
Proof.
  apply (check_version_compatible_prefix_only
      Sample.json_loads Sample.json_load_error Sample.open_error
      Sample.tar_members Sample.tar_extract Sample.mkdtemp_name
           "1.5.0" "1.5.9.3" false Sample.world0); reflexivity.
Defined.

(** At the sample: [v1.5], [1.10] and [1.2.0] against the installed
    [1.5.2]. *)
Lemma check_version_compatible_errors_witness :
  raises (check_version_compatible Sample.json_loads Sample.json_load_error Sample.open_error
      Sample.tar_members Sample.tar_extract Sample.mkdtemp_name
            "v1.5" false Sample.world0).1 is_ValueError
  ∧ raises (check_version_compatible Sample.json_loads Sample.json_load_error Sample.open_error
      Sample.tar_members Sample.tar_extract Sample.mkdtemp_name
              "1.10" false Sample.world0).1 is_KeyError
  ∧ raises (check_version_compatible Sample.json_loads Sample.json_load_error Sample.open_error
      Sample.tar_members Sample.tar_extract Sample.mkdtemp_name
              "1.2.0" false Sample.world0).1 is_ValueError
  ∧ (check_version_compatible Sample.json_loads Sample.json_load_error Sample.open_error
      Sample.tar_members Sample.tar_extract Sample.mkdtemp_name
       "1.2.0" true Sample.world0).1 = Return false.
Proof.
  split; [|split].
  - destruct (check_version_compatible_errors
      Sample.json_loads Sample.json_load_error Sample.open_error
      Sample.tar_members Sample.tar_extract Sample.mkdtemp_name
                "v1.5" Sample.world0 eq_refl) as [H _].
    apply (H false "" "v"%char "1.5"); reflexivity.
  - destruct (check_version_compatible_errors
      Sample.json_loads Sample.json_load_error Sample.open_error
      Sample.tar_members Sample.tar_extract Sample.mkdtemp_name
                "1.10" Sample.world0 eq_refl) as (_ & H & _).
    apply (H false); reflexivity.
  - destruct (check_version_compatible_errors
      Sample.json_loads Sample.json_load_error Sample.open_error
      Sample.tar_members Sample.tar_extract Sample.mkdtemp_name
                "1.2.0" Sample.world0 eq_refl) as (_ & _ & _ & _ & H).
    apply (H "group2" "group1"); [reflexivity..|discriminate].
Defined.

(** At the sample: the two metadata files below [/data]. *)
Lemma get_ampl_version_from_json_value_witness :
  get_ampl_version_from_json Sample.json_loads Sample.json_load_error Sample.open_error
    "/data/model_metadata.json" Sample.world0
  = (Return (PStr "1.4.1 "), Sample.world0)
  ∧ get_ampl_version_from_json Sample.json_loads Sample.json_load_error Sample.open_error
      "../../data/old_metadata.json" Sample.world0
    = (Return (PStr "probably 1.0.0"), Sample.world0).
Proof.
  split.
  - eapply (get_ampl_version_from_json_value
      Sample.json_loads Sample.json_load_error Sample.open_error
              "/data/model_metadata.json" "json:good" Sample.world0); reflexivity.
  - eapply (get_ampl_version_from_json_value
      Sample.json_loads Sample.json_load_error Sample.open_error
              "../../data/old_metadata.json" "json:no-version" Sample.world0); reflexivity.
Defined.

(** At the second sample, the archive [c.tar.gz]: it holds the file
    [model_metadata.json] at its top level and a member
    [model_metadata.json/x].  The first is extracted; the second cannot
    be, because its directory is that file, and the extraction raises
    [NotADirectoryError].  So [get_ampl_version_from_model] raises that
    error, although the metadata file is in the temporary directory and
    [get_ampl_version_from_json] reads the version [1.4.1] from it. *)
Lemma get_ampl_version_from_model_stacked_members :
  (tarfile_open Sample.open_error Sample2.tar_members "/stacked/c.tar.gz"
     (mkdtemp Sample.mkdtemp_name Sample2.world1).2).1
  = Return Sample2.stacked_members
  ∧ Sample.regular "model_metadata.json" "json:good" ∈ Sample2.stacked_members
  ∧ (get_ampl_version_from_model Sample2.json_loads Sample.json_load_error Sample.open_error
      Sample2.tar_members Sample.tar_extract Sample.mkdtemp_name
       "/stacked/c.tar.gz" Sample2.world1).1
    = Raise (NotADirectoryError
               (Path.os_path_join (Sample.mkdtemp_name Sample2.world1)
                  "model_metadata.json/x"))
  ∧ (get_ampl_version_from_json Sample2.json_loads Sample.json_load_error Sample.open_error
       (Path.os_path_join (Sample.mkdtemp_name Sample2.world1) "model_metadata.json")
       (get_ampl_version_from_model Sample2.json_loads Sample.json_load_error Sample.open_error
      Sample2.tar_members Sample.tar_extract Sample.mkdtemp_name
          "/stacked/c.tar.gz" Sample2.world1).2).1
    = Return (PStr "1.4.1 ").
Proof.
  split_and!.
  - reflexivity.
  - apply list_elem_of_here.
  - vm_compute. reflexivity.
  - vm_compute. reflexivity.
Qed.

(** At the sample: the good archive. *)
Lemma get_ampl_version_from_model_after_extraction_witness :
  get_ampl_version_from_model Sample.json_loads Sample.json_load_error Sample.open_error
      Sample.tar_members Sample.tar_extract Sample.mkdtemp_name
    "/models/good.tar.gz" Sample.world0
  = get_ampl_version_from_json Sample.json_loads Sample.json_load_error Sample.open_error
      (Path.os_path_join (Sample.mkdtemp_name Sample.world0) "model_metadata.json")
      (extractall Sample.tar_extract
         [Sample.regular "./model_metadata.json" "json:good";
          Sample.regular "./model.pkl" "weights"]
         (Sample.mkdtemp_name Sample.world0)
         (mkdtemp Sample.mkdtemp_name Sample.world0).2).2
  ∧ (get_ampl_version_from_model Sample.json_loads Sample.json_load_error Sample.open_error
      Sample.tar_members Sample.tar_extract Sample.mkdtemp_name
       "/models/good.tar.gz" Sample.world0).1 = Return (PStr "1.4.1 ").
Proof.
  destruct (get_ampl_version_from_model_after_extraction
      Sample.json_loads Sample.json_load_error Sample.open_error
      Sample.tar_members Sample.tar_extract Sample.mkdtemp_name sample_mkdtemp_fresh
              "/models/good.tar.gz"
              [Sample.regular "./model_metadata.json" "json:good";
               Sample.regular "./model.pkl" "weights"]
              Sample.world0 eq_refl) as (_ & Hreturns & _).
  split.
  - apply Hreturns. vm_compute. reflexivity.
  - vm_compute. reflexivity.
Defined.

(** At the samples: below [/models] two archives are skipped and one is
    listed; below [/broken] the damaged archive ends the scan; below
    [/mixed] the directory [d.tar.gz] ends it. *)
Lemma get_ampl_version_from_dir_scan_witness :
  (get_ampl_version_from_dir Sample.json_loads Sample.json_load_error Sample.open_error
      Sample.tar_members Sample.tar_extract Sample.mkdtemp_name
      Sample.py_repr Sample.rglob Sample.rglob_raises
     "/models" Sample.world0).1
  = Return "/models/good.tar.gz, 1.4.1 "
  ∧ (get_ampl_version_from_dir Sample.json_loads Sample.json_load_error Sample.open_error
      Sample.tar_members Sample.tar_extract Sample.mkdtemp_name
      Sample.py_repr Sample.rglob Sample.rglob_raises
       "/broken" Sample.world0).1
    = Raise ReadError
  ∧ (get_ampl_version_from_dir Sample2.json_loads Sample.json_load_error Sample.open_error
      Sample2.tar_members Sample.tar_extract Sample.mkdtemp_name
      Sample.py_repr Sample.rglob Sample.rglob_raises
       "/mixed" Sample2.world1).1
    = Raise (IsADirectoryError "/mixed/d.tar.gz").
Proof.
  split_and!.
  - destruct (get_ampl_version_from_dir_scan
      Sample.json_loads Sample.json_load_error Sample.open_error
      Sample.tar_members Sample.tar_extract Sample.mkdtemp_name
      Sample.py_repr Sample.rglob Sample.rglob_raises
                "/models" Sample.world0) as (_ & H & _).
    rewrite H.
    + vm_compute. reflexivity.
    + apply Forall_forall. vm_compute. repeat constructor.
  - destruct (get_ampl_version_from_dir_scan
      Sample.json_loads Sample.json_load_error Sample.open_error
      Sample.tar_members Sample.tar_extract Sample.mkdtemp_name
      Sample.py_repr Sample.rglob Sample.rglob_raises
                "/broken" Sample.world0) as (_ & _ & H & _).
    apply (H [] "/broken/damaged.tar.gz" ReadError []).
    + vm_compute. reflexivity.
    + intros o Ho. by apply elem_of_nil in Ho.
    + reflexivity.
  - destruct (get_ampl_version_from_dir_scan
      Sample2.json_loads Sample.json_load_error Sample.open_error
      Sample2.tar_members Sample.tar_extract Sample.mkdtemp_name
      Sample.py_repr Sample.rglob Sample.rglob_raises
                "/mixed" Sample2.world1) as (_ & _ & H & _).
    apply (H [] "/mixed/d.tar.gz" (IsADirectoryError "/mixed/d.tar.gz") []).
    + vm_compute. reflexivity.
    + intros o Ho. by apply elem_of_nil in Ho.
    + reflexivity.
Defined.

(** At the sample: the fourth compound is not in the split. *)
Lemma split_by_label_witness :
  ∃ train test valid,
    split Sample.total (Sample.splits "c9") "compound_id" = Return (train, test, valid)
    ∧ map label (rows train) = [0%Z]
    ∧ map label (rows test) = [2%Z]
    ∧ map label (rows valid) = [1%Z].
Proof.
  destruct (split_by_label Sample.total (Sample.splits "c9") "compound_id" 0 1 0)
    as (train & test & valid & Hsplit & _).
  - reflexivity.
  - reflexivity.
  - reflexivity.
  - apply (bool_decide_unpack _). vm_compute. exact I.
  - exists train, test, valid. split; [exact Hsplit|].
    vm_compute in Hsplit. injection Hsplit as <- <- <-. by vm_compute.
Defined.

(** At the sample: the split that labels all four compounds. *)
Lemma dists_from_train_and_test_witness :
  ∃ ss,
    SplitStats_init _ Sample.calc_dist_smiles Sample.make_y_w
      Sample.total (Sample.splits "c4") "smiles" "compound_id" ["pIC50"; "logS"]
    = Return ss
    ∧ ∃ train_smiles test_smiles,
        split Sample.total (Sample.splits "c4") "compound_id"
        = Return (train_df _ ss, test_df _ ss, valid_df _ ss)
        ∧ getitem (train_df _ ss) "smiles" = Return train_smiles
        ∧ getitem (test_df _ ss) "smiles" = Return test_smiles
        ∧ Sample.calc_dist_smiles "ECFP" "tanimoto" train_smiles test_smiles
          = Return (dists _ ss).
Proof.
  eexists. split.
  - vm_compute. reflexivity.
  - eapply (dists_from_train_and_test _ Sample.calc_dist_smiles Sample.make_y_w
              Sample.total (Sample.splits "c4") "smiles" "compound_id" ["pIC50"; "logS"]).
    vm_compute. reflexivity.
Defined.

(** At the sample: both response columns. *)
Lemma split_ratios_sum_to_one_witness :
  ∃ ss,
    SplitStats_init _ Sample.calc_dist_smiles Sample.make_y_w
      Sample.total (Sample.splits "c4") "smiles" "compound_id" ["pIC50"; "logS"]
    = Return ss
    ∧ (nth 0 (train_fracs _ ss) 0 + nth 0 (valid_fracs _ ss) 0
       + nth 0 (test_fracs _ ss) 0 == 1)%Q
    ∧ (nth 1 (train_fracs _ ss) 0 + nth 1 (valid_fracs _ ss) 0
       + nth 1 (test_fracs _ ss) 0 == 1)%Q.
Proof.
  eexists. split.
  - vm_compute. reflexivity.
  - edestruct (split_ratios_sum_to_one _ Sample.calc_dist_smiles Sample.make_y_w
                 Sample.row_weights sample_make_y_w_rowwise
                 Sample.total (Sample.splits "c4") "smiles" "compound_id"
                 ["pIC50"; "logS"]) as (_ & _ & _ & H).
    + vm_compute. reflexivity.
    + intros r. cbn [train_df test_df valid_df rows].
      rewrite !elem_of_cons, !elem_of_nil.
      split_and!; intros [H1 H2];
        repeat (destruct H1 as [H1|H1]; [subst r|]); try done;
        repeat (destruct H2 as [H2|H2]; [discriminate H2|]); done.
    + intros r. cbn [train_df test_df valid_df rows Sample.total].
      rewrite !elem_of_cons, !elem_of_nil.
      intros [->|[->|[->|[->|[]]]]]; auto.
    + intros [|[|j]] Hj; [by vm_compute..|simpl in Hj; lia].
    + split; apply H; simpl; lia.
Defined.

(** * The further properties at the sample inputs *)

Lemma sample_row_weights_nonneg cols response_cols r j :
  (0 <= nth j (Sample.row_weights cols response_cols r) 0)%Q.
Proof.
  unfold Sample.row_weights. revert j.
  induction response_cols as [|col rest IH]; intros [|j]; simpl;
    try done; try apply IH.
  destruct (column_index cols col) as [i|]; [|done]. by destruct (cell_at i r).
Qed.



(** At the second sample: nothing below [/docs] matches. *)
Lemma get_ampl_version_from_dir_no_archive_witness :
  get_ampl_version_from_dir Sample2.json_loads Sample.json_load_error Sample.open_error
      Sample2.tar_members Sample.tar_extract Sample.mkdtemp_name
      Sample.py_repr Sample.rglob Sample.rglob_raises
    "/docs" Sample2.world1
  = (Return "", Sample2.world1).
Proof.
  apply (get_ampl_version_from_dir_no_archive
      Sample2.json_loads Sample.json_load_error Sample.open_error
      Sample2.tar_members Sample.tar_extract Sample.mkdtemp_name
      Sample.py_repr Sample.rglob Sample.rglob_raises
           "/docs" Sample2.world1).
  - vm_compute. reflexivity.
  - reflexivity.
Defined.

(** At the second sample: a missing metadata file, and the directory
    [/docs] given as the metadata file. *)
Lemma get_ampl_version_from_json_errors_witness :
  (get_ampl_version_from_json Sample2.json_loads Sample.json_load_error Sample.open_error
     "/docs/model_metadata.json" Sample2.world1).1
  = Raise (FileNotFoundError "/docs/model_metadata.json")
  ∧ (get_ampl_version_from_json Sample2.json_loads Sample.json_load_error Sample.open_error
       "/docs" Sample2.world1).1
    = Raise (IsADirectoryError "/docs").
Proof.
  split.
  - apply (get_ampl_version_from_json_errors
      Sample2.json_loads Sample.json_load_error Sample.open_error
             "/docs/model_metadata.json" Sample2.world1).
    vm_compute. reflexivity.
  - apply (get_ampl_version_from_json_errors
      Sample2.json_loads Sample.json_load_error Sample.open_error
             "/docs" Sample2.world1).
    vm_compute. reflexivity.
Defined.

(** At the second sample: the archive without ['model_parameters'] first,
    the good archive after it. *)
Lemma scan_stops_without_model_parameters_witness :
  (scan Sample2.json_loads Sample.json_load_error Sample.open_error
      Sample2.tar_members Sample.tar_extract Sample.mkdtemp_name Sample.py_repr
     ["/scan/a.tar.gz"; "/results/m1.tar.gz"] ["/x.tar.gz, 1.5.0"] Sample2.world1).1
  = Raise (AttributeError "get").
Proof.
  eapply (scan_stops_without_model_parameters
      Sample2.json_loads Sample.json_load_error Sample.open_error
      Sample2.tar_members Sample.tar_extract Sample.mkdtemp_name
      Sample.py_repr Sample.rglob Sample.rglob_raises
            "/scan/a.tar.gz" "json:noparams"
            [Sample.regular "model_metadata.json" "json:noparams"]
            (PDict [("model_uuid", PStr "77")])).
  - reflexivity.
  - vm_compute. reflexivity.
  - vm_compute. reflexivity.
  - reflexivity.
  - intros (items & params & [= <-] & Hget). discriminate Hget.
Defined.

(** At the sample: a version that is in no group. *)
Lemma check_version_compatible_not_file_effects_witness :
  (check_version_compatible Sample.json_loads Sample.json_load_error Sample.open_error
      Sample.tar_members Sample.tar_extract Sample.mkdtemp_name
     "1.9.9" false Sample.world0).2 = Sample.world0.
Proof.
  apply (check_version_compatible_not_file_effects
      Sample.json_loads Sample.json_load_error Sample.open_error
      Sample.tar_members Sample.tar_extract Sample.mkdtemp_name
           "1.9.9" false Sample.world0).
  reflexivity.
Defined.

(** At the sample: [1.2.0] against the installed [1.5.2] returns
    [False], and [ignore_check] was set. *)
Lemma check_version_compatible_false_only_when_ignored_witness :
  (check_version_compatible Sample.json_loads Sample.json_load_error Sample.open_error
      Sample.tar_members Sample.tar_extract Sample.mkdtemp_name
     "1.2.0" true Sample.world0).1 = Return false
  ∧ true = true.
Proof.
  split; [reflexivity|].
  apply (check_version_compatible_false_only_when_ignored
      Sample.json_loads Sample.json_load_error Sample.open_error
      Sample.tar_members Sample.tar_extract Sample.mkdtemp_name
           "1.2.0" true Sample.world0).
  reflexivity.
Defined.

(** At the sample: [1.4.2] is accepted under [1.5.0], so [1.5.0] is
    accepted under [1.4.2]. *)
Lemma compatible_is_an_equivalence_witness :
  compatible Sample.json_loads Sample.json_load_error Sample.open_error
      Sample.tar_members Sample.tar_extract Sample.mkdtemp_name
    Sample.world0 "1.5.0" "1.4.2".
Proof.
  apply (compatible_is_an_equivalence Sample.json_loads Sample.json_load_error Sample.open_error
      Sample.tar_members Sample.tar_extract Sample.mkdtemp_name
           Sample.world0 "1.4.2" "1.5.0" "1.5.0"); reflexivity.
Defined.

(** At the sample: the installed versions [1.5.0] and [1.5.1.dev3]. *)
Lemma check_version_compatible_installed_prefix_only_witness :
  (check_version_compatible Sample.json_loads Sample.json_load_error Sample.open_error
      Sample.tar_members Sample.tar_extract Sample.mkdtemp_name
     "1.4.0" false (set_installed "1.5.0" Sample.world0)).1
  = (check_version_compatible Sample.json_loads Sample.json_load_error Sample.open_error
      Sample.tar_members Sample.tar_extract Sample.mkdtemp_name
       "1.4.0" false (set_installed "1.5.1.dev3" Sample.world0)).1.
Proof.
  apply (check_version_compatible_installed_prefix_only
      Sample.json_loads Sample.json_load_error Sample.open_error
      Sample.tar_members Sample.tar_extract Sample.mkdtemp_name
           "1.4.0" "1.5.0" "1.5.1.dev3" false Sample.world0); reflexivity.
Defined.

(** At the second sample: the archive whose version is the number 1.5. *)
Lemma check_version_compatible_file_errors_witness :
  (check_version_compatible Sample2.json_loads Sample.json_load_error Sample.open_error
      Sample2.tar_members Sample.tar_extract Sample.mkdtemp_name
     "/numbers/n.tar.gz" true Sample2.world1).1
  = Raise (AttributeError "strip").
Proof.
  apply (check_version_compatible_file_errors
      Sample2.json_loads Sample.json_load_error Sample.open_error
      Sample2.tar_members Sample.tar_extract Sample.mkdtemp_name
           "/numbers/n.tar.gz" true Sample2.world1 eq_refl) with (version := PFloat 1.5).
  - reflexivity.
  - intros s. discriminate.
Defined.

(** At the sample: the split without a validation subset, in which the
    label of the fourth compound is misspelt. *)
Lemma split_rows_witness :
  ∃ train test valid,
    split Sample.total Sample2.splits_no_valid "compound_id"
    = Return (train, test, valid)
    ∧ columns train = columns Sample.total
    ∧ rows valid `sublist_of` rows Sample.total.
Proof.
  destruct (split_rows Sample.total Sample2.splits_no_valid "compound_id" 0 1 0
              eq_refl eq_refl eq_refl)
    as (train & test & valid & Hsplit & (Hc & _ & _) & (_ & _ & Hs) & _).
  by exists train, test, valid.
Defined.

(** At the sample: a data set without the column [id]. *)
Lemma split_missing_column_witness :
  split Sample.total (Sample.splits "c4") "id" = Raise (KeyError "id").
Proof.
  apply (split_missing_column Sample.total (Sample.splits "c4") "id").
  reflexivity.
Defined.

(** At the sample: three of the four compounds are in a subset. *)
Lemma split_sizes_witness :
  ∃ train test valid,
    split Sample.total (Sample.splits "c9") "compound_id" = Return (train, test, valid)
    ∧ (List.length (rows train) + List.length (rows test) + List.length (rows valid)
       ≤ List.length (rows Sample.total))%nat.
Proof.
  destruct (split Sample.total (Sample.splits "c9") "compound_id")
    as [[[train test] valid]|] eqn:Hsplit; [|discriminate Hsplit].
  exists train, test, valid. split; [reflexivity|].
  apply (split_sizes Sample.total (Sample.splits "c9") "compound_id" train test valid 0).
  - exact Hsplit.
  - reflexivity.
  - apply (bool_decide_unpack _). vm_compute. exact I.
Defined.

(** At the sample: the first response column. *)
Lemma split_ratios_between_zero_and_one_witness :
  ∃ ss,
    SplitStats_init _ Sample.calc_dist_smiles Sample.make_y_w
      Sample.total (Sample.splits "c4") "smiles" "compound_id" ["pIC50"; "logS"]
    = Return ss
    ∧ (0 <= nth 0 (train_fracs _ ss) 0 <= 1)%Q.
Proof.
  eexists. split.
  - vm_compute. reflexivity.
  - eapply (split_ratios_between_zero_and_one _ Sample.calc_dist_smiles Sample.make_y_w
              Sample.row_weights sample_make_y_w_rowwise
              Sample.total (Sample.splits "c4") "smiles" "compound_id"
              ["pIC50"; "logS"]).
    + vm_compute. reflexivity.
    + intros r j _. apply sample_row_weights_nonneg.
    + simpl. lia.
    + by vm_compute.
Defined.

(** At the sample: the split without a validation subset. *)
Lemma split_ratios_of_empty_subset_witness :
  ∃ ss,
    SplitStats_init _ Sample.calc_dist_smiles Sample.make_y_w
      Sample.total Sample2.splits_no_valid "smiles" "compound_id" ["pIC50"; "logS"]
    = Return ss
    ∧ (nth 0 (valid_fracs _ ss) 0 == 0)%Q.
Proof.
  eexists. split.
  - vm_compute. reflexivity.
  - eapply (split_ratios_of_empty_subset _ Sample.calc_dist_smiles Sample.make_y_w
              Sample.row_weights sample_make_y_w_rowwise
              Sample.total Sample2.splits_no_valid "smiles" "compound_id"
              ["pIC50"; "logS"]).
    + vm_compute. reflexivity.
    + reflexivity.
    + simpl. lia.
    + by vm_compute.
Defined.

(** At the sample, with a [savefig] that cannot write [svg]: the
    histogram is saved as [png] and the call ends there, one file
    saved. *)
Lemma make_all_plots_written_witness :
  ∃ ss,
    SplitStats_init _ Sample.calc_dist_smiles Sample.make_y_w
      Sample.total (Sample.splits "c4") "smiles" "compound_id" ["pIC50"; "logS"]
    = Return ss
    ∧ (∃ k, (k ≤ 6)%nat
         ∧ (make_all_plots _ Sample.sns_distplot Sample.umap_scatter Sample.sns_boxplot
              Sample.pyplot_tight_layout Sample2.pyplot_savefig
              ss "out/split_a" ["old.png"]).2
           = (["old.png"] ++ take k (figure_files "out/split_a"))%list)
    ∧ (make_all_plots _ Sample.sns_distplot Sample.umap_scatter Sample.sns_boxplot
         Sample.pyplot_tight_layout Sample2.pyplot_savefig
         ss "out/split_a" ["old.png"]).2
      = ["old.png"; "out/split_a_dist_hist.png"].
Proof.
  eexists. split; [vm_compute; reflexivity|].
  split.
  - match goal with
    | |- ∃ k, _ ∧ (make_all_plots _ _ _ _ _ _ ?ss _ _).2 = _ =>
        destruct (make_all_plots_written _ Sample.sns_distplot Sample.umap_scatter
                    Sample.sns_boxplot Sample.pyplot_tight_layout Sample2.pyplot_savefig
                    ss "out/split_a" ["old.png"]) as (k & Hk & Hs & _)
    end.
    exists k. split; [exact Hk|exact Hs].
  - reflexivity.
Defined.
